(** * demo.py: the interactive Cortex session workflow

    A shallow embedding of [src/demo.py]: the [Demo] class, its methods and
    the top-level script, as a state-and-exception monad over

    - the attribute dictionary of the one [Demo] instance,
    - the lines the operator will type at the console,
    - the replies and warnings the [Cortex] client will hand back,
    - the chronological trace of what the script printed, prompted and
      called.

    [Cortex] (module [cortex]) and [colorama] are outside this file's
    source: a call of [Cortex.await_response] is recorded in the trace with
    its keyword arguments and answered from the reply queue, whatever the
    request was, so that every server behaviour is covered. *)

From Stdlib Require Import ZArith String Ascii List Bool Lia.
From stdpp Require Import base option list strings gmap.

Local Open Scope string_scope.
Local Open Scope list_scope.
Local Open Scope Z_scope.

(** ** Python values *)

(** The values that travel through the script: JSON documents decoded by the
    client, the integers read with [int(input())], and [None].  A [dict] keeps
    its insertion order, so it is an association list; the keys of a decoded
    JSON object are strings. JSON numbers are the integral ones. *)
#[warnings="-register-all"]
Inductive value : Type :=
| VNone
| VBool (b : bool)
| VInt (z : Z)
| VStr (s : string)
| VList (l : list value)
| VDict (items : list (string * value)).

(** The exceptions that the operations of the script can raise. *)
Inductive exn : Type :=
| KeyError | IndexError | TypeError | ValueError | AttributeError | EOFError.

#[global] Instance exn_eq_dec : EqDecision exn.
Proof. solve_decision. Defined.

(** [bool(v)]: the truth value Python gives to [v]. *)
Definition truthy (v : value) : bool :=
  match v with
  | VNone => false
  | VBool b => b
  | VInt z => negb (z =? 0)
  | VStr s => negb (String.eqb s "")
  | VList l => match l with [] => false | _ => true end
  | VDict d => match d with [] => false | _ => true end
  end.

(** [v == False]: [False] equals the integer zero and nothing else apart
    from itself. *)
Definition eq_False (v : value) : bool :=
  match v with
  | VBool b => negb b
  | VInt z => z =? 0
  | _ => false
  end.

(** [s == v] for a string [s]. *)
Definition eq_str (s : string) (v : value) : bool :=
  match v with
  | VStr t => String.eqb s t
  | _ => false
  end.

(** [z == v] for an integer [z]; [True] and [False] count as 1 and 0. *)
Definition eq_int (z : Z) (v : value) : bool :=
  match v with
  | VInt y => z =? y
  | VBool b => z =? (if b then 1 else 0)
  | _ => false
  end.

(** [z in l]. *)
Definition int_in (z : Z) (l : list value) : bool := existsb (eq_int z) l.

(** [d[key]] on the items of a dict. *)
Fixpoint assoc (key : string) (items : list (string * value)) : option value :=
  match items with
  | [] => None
  | (k, v) :: rest => if String.eqb key k then Some v else assoc key rest
  end.

(** [l[i]] on a list: negative indices count from the end. *)
Definition index {A} (l : list A) (i : Z) : option A :=
  let n := Z.of_nat (length l) in
  if (0 <=? i) && (i <? n) then nth_error l (Z.to_nat i)
  else if (- n <=? i) && (i <? 0) then nth_error l (Z.to_nat (n + i))
  else None.

Definition chars (s : string) : list value :=
  map (fun c => VStr (String c EmptyString)) (list_ascii_of_string s).

(** [v[k]]: subscription. *)
Definition subscript (v k : value) : exn + value :=
  match v with
  | VDict d =>
      match k with
      | VStr key => match assoc key d with Some x => inr x | None => inl KeyError end
      | VList _ | VDict _ => inl TypeError (* unhashable key *)
      | _ => inl KeyError
      end
  | VList l =>
      match k with
      | VInt i => match index l i with Some x => inr x | None => inl IndexError end
      | VBool b =>
          match index l (if b then 1 else 0) with Some x => inr x | None => inl IndexError end
      | _ => inl TypeError
      end
  | VStr s =>
      match k with
      | VInt i => match index (chars s) i with Some x => inr x | None => inl IndexError end
      | VBool b =>
          match index (chars s) (if b then 1 else 0) with
          | Some x => inr x | None => inl IndexError end
      | _ => inl TypeError
      end
  | _ => inl TypeError
  end.

(** [iter(v)]: the elements a [for] loop goes through. *)
Definition elements_of (v : value) : exn + list value :=
  match v with
  | VList l => inr l
  | VDict d => inr (map (fun kv => VStr (fst kv)) d)
  | VStr s => inr (chars s)
  | _ => inl TypeError
  end.

(** [range(v)] as the number of iterations. *)
Definition range_of (v : value) : exn + nat :=
  match v with
  | VInt n => inr (Z.to_nat n)
  | VBool b => inr (if b then 1%nat else 0%nat)
  | _ => inl TypeError
  end.

(** ** [int(text)] *)

(** The blanks that [int] skips around a number written in ASCII: tab, line
    feed, vertical tab, form feed, carriage return and space. *)
Definition is_space (c : ascii) : bool :=
  let n := nat_of_ascii c in
  ((9 <=? n)%nat && (n <=? 13)%nat) || (n =? 32)%nat.

(** Whether a text is plain ASCII: every character below 128. *)
Definition ascii_text (s : string) : bool :=
  forallb (fun c => (nat_of_ascii c <? 128)%nat) (list_ascii_of_string s).

Definition digit_of (c : ascii) : option Z :=
  let n := nat_of_ascii c in
  if ((48 <=? n)%nat && (n <=? 57)%nat) then Some (Z.of_nat n - 48) else None.

Fixpoint lstrip (s : string) : string :=
  match s with
  | String c rest => if is_space c then lstrip rest else s
  | EmptyString => EmptyString
  end.

Fixpoint all_space (s : string) : bool :=
  match s with
  | String c rest => is_space c && all_space rest
  | EmptyString => true
  end.

(** Decimal digits, single underscores between digits, then blanks only.
    The result carries the number of digits read. *)
Fixpoint digits (acc : Z) (count : nat) (after_underscore : bool) (s : string)
  : option (Z * nat) :=
  match s with
  | EmptyString => if after_underscore then None else Some (acc, count)
  | String c rest =>
      match digit_of c with
      | Some d => digits (10 * acc + d) (S count) false rest
      | None =>
          if after_underscore then None
          else if Ascii.eqb c "_" then digits acc count true rest
          else if is_space c && all_space rest then Some (acc, count)
          else None
      end
  end.

(** [int(s)] in base ten on ASCII text: blanks around, an optional sign, then
    digits; [None] stands for [ValueError], which is also what more than 4300
    digits give. *)
Definition parse_int (s : string) : option Z :=
  let s1 := lstrip s in
  let '(negative, s2) :=
    match s1 with
    | String c rest =>
        if Ascii.eqb c "-" then (true, rest)
        else if Ascii.eqb c "+" then (false, rest)
        else (false, s1)
    | EmptyString => (false, s1)
    end in
  match s2 with
  | String c _ =>
      match digit_of c with
      | Some _ =>
          match digits 0 0 false s2 with
          | Some (n, count) =>
              if (count <=? 4300)%nat then Some (if negative then - n else n) else None
          | None => None
          end
      | None => None
      end
  | EmptyString => None
  end.

(** The integer that [int(s)] returns for an ASCII text [s]. Text that is
    not ASCII has no reading here: what [int] makes of it depends on the
    Unicode tables of the interpreter. *)
Definition py_int (s : string) : option Z :=
  if ascii_text s then parse_int s else None.

(** An ASCII text on which [int(s)] raises [ValueError]. *)
Definition unreadable (s : string) : bool :=
  ascii_text s && match parse_int s with Some _ => false | None => true end.

(** ** What the script shows and asks *)

(** [colorama]'s colour switches, kept as marks in the text. *)
Inductive style : Type :=
| MAGENTA | GREEN | RED | CYAN | YELLOW | BLUE | RESET_ALL.

(** A formatted string: literal text, colour marks and interpolated values,
    left unformatted. *)
Inductive piece : Type :=
| Lit (s : string)
| Sty (c : style)
| Val (v : value).

Module Cortex.

(** The methods of the client handed to [await_response] as [api_call]. *)
Inductive api : Type :=
| get_user_login | request_access | authorize | generate_new_token
| get_user_information | query_subjects | create_subject | query_records
| create_record | get_record_infos | control_device | query_headsets
| create_session | update_session | subscribe.

End Cortex.

Inductive event : Type :=
| Print (text : list piece)
| Prompt (text : list piece)
| Call (api_call : Cortex.api) (kwargs : list (string * value))
| AwaitWarning
| Close.

(** ** The run-time state and the monad *)

Record state : Type := State {
  self : gmap string value;   (* attributes of the Demo instance *)
  stdin : list string;        (* lines still to be typed *)
  replies : list value;       (* what await_response will return, in order *)
  warnings : list value;      (* what await_warning will return, in order *)
  trace : list event          (* oldest first *)
}.

(** Why a computation stopped before its end. *)
Inductive signal : Type :=
| Exn (e : exn)     (* an exception is propagating *)
| Returned          (* a [return] statement, until the enclosing method *)
| Waiting           (* blocked on a reply or warning that never comes *)
| OutOfFuel         (* the bound of a [while] loop was too small *)
| Foreign.          (* [int] met a text that is not ASCII: left open *)

Inductive outcome (A : Type) : Type :=
| Ok (a : A) (st : state)
| Stop (why : signal) (st : state).
Arguments Ok {A} a st.
Arguments Stop {A} why st.

Definition M (A : Type) : Type := state -> outcome A.

Definition ret {A} (a : A) : M A := fun st => Ok a st.

Definition bind {A B} (m : M A) (f : A -> M B) : M B :=
  fun st => match m st with
            | Ok a st' => f a st'
            | Stop why st' => Stop why st'
            end.

Notation "x <- m ;; k" := (bind m (fun x => k))
  (at level 100, m at next level, right associativity).
Notation "m ;;; k" := (bind m (fun _ => k))
  (at level 100, right associativity).

Definition raise {A} (e : exn) : M A := fun st => Stop (Exn e) st.

(** [return] *)
Definition return_ {A} : M A := fun st => Stop Returned st.

(** A method body: a [return] inside ends the method, not the caller. *)
Definition method (body : M unit) : M unit :=
  fun st => match body st with
            | Stop Returned st' => Ok tt st'
            | r => r
            end.

(** [try: body except e: handler] *)
Definition try_except {A} (body : M A) (e : exn) (handler : M A) : M A :=
  fun st => match body st with
            | Stop (Exn e') st' =>
                if decide (e' = e) then handler st' else Stop (Exn e') st'
            | r => r
            end.

Definition lift {A} (r : exn + A) : M A :=
  match r with
  | inr a => ret a
  | inl e => raise e
  end.

Definition emit (e : event) : M unit :=
  fun st => Ok tt (State (self st) (stdin st) (replies st) (warnings st) (trace st ++ [e])).

(** [print(text)] *)
Definition print (text : list piece) : M unit := emit (Print text).

(** [input(text)]: the next line typed; [EOFError] when there is none. *)
Definition input (text : list piece) : M string :=
  emit (Prompt text) ;;;
  fun st => match stdin st with
            | line :: rest =>
                Ok line (State (self st) rest (replies st) (warnings st) (trace st))
            | [] => Stop (Exn EOFError) st
            end.

(** [int(s)]: on ASCII text the integer read, or [ValueError]; on other
    text the run is not followed any further. *)
Definition int (s : string) : M Z :=
  if ascii_text s then
    match parse_int s with
    | Some z => ret z
    | None => raise ValueError
    end
  else fun st => Stop Foreign st.

(** [self.name] *)
Definition getattr (name : string) : M value :=
  fun st => match self st !! name with
            | Some v => Ok v st
            | None => Stop (Exn AttributeError) st
            end.

(** [self.name = v] *)
Definition setattr (name : string) (v : value) : M unit :=
  fun st => Ok tt (State (<[name := v]> (self st)) (stdin st) (replies st)
                         (warnings st) (trace st)).

(** [v[k]] *)
Definition item (v k : value) : M value := lift (subscript v k).

(** [self.cortex.await_response(api_call=..., **kwargs)]: the request goes
    out, then the script waits for its reply. *)
Definition await_response (api_call : Cortex.api) (kwargs : list (string * value))
  : M value :=
  emit (Call api_call kwargs) ;;;
  fun st => match replies st with
            | r :: rest => Ok r (State (self st) (stdin st) rest (warnings st) (trace st))
            | [] => Stop Waiting st
            end.

(** [self.cortex.await_warning()] *)
Definition await_warning : M value :=
  emit AwaitWarning ;;;
  fun st => match warnings st with
            | w :: rest => Ok w (State (self st) (stdin st) (replies st) rest (trace st))
            | [] => Stop Waiting st
            end.

(** [for x in l: body x] *)
Fixpoint for_each {A} (l : list A) (body : A -> M unit) : M unit :=
  match l with
  | [] => ret tt
  | x :: rest => body x ;;; for_each rest body
  end.

(** [for i in range(n): body i] *)
Definition for_range (n : nat) (body : Z -> M unit) : M unit :=
  for_each (map Z.of_nat (seq 0 n)) body.

(** [len(v)] *)
Definition len (v : value) : M nat :=
  match v with
  | VList l => ret (length l)
  | VDict d => ret (length d)
  | VStr s => ret (String.length s)
  | _ => raise TypeError
  end.

(** [z not in v] *)
Definition not_in (z : Z) (v : value) : M bool :=
  match v with
  | VList l => ret (negb (int_in z l))
  | VDict _ => ret true (* the keys are strings *)
  | _ => raise TypeError
  end.

(** [v.append(x)], as the new content of [v]. *)
Definition append (v x : value) : M value :=
  match v with
  | VList l => ret (VList (l ++ [x]))
  | _ => raise AttributeError
  end.

(** [v[i] = x] on a list, for a position [i] counted from its start, as the
    new content of [v]. *)
Definition store (v : value) (i : nat) (x : value) : M value :=
  match v with
  | VList l => if (i <? length l)%nat then ret (VList (<[i := x]> l)) else raise IndexError
  | _ => raise TypeError
  end.

(** [for x in v: body x] *)
Definition for_in (v : value) (body : value -> M unit) : M unit :=
  l <- lift (elements_of v) ;; for_each l body.

Definition tab : string := String (ascii_of_nat 9) EmptyString.

(** The dictionary [stream_dic] of [select_streams]. *)
Definition stream_dic : list (Z * string) :=
  [ (0, "mot"); (1, "dev"); (2, "eq"); (3, "power"); (4, "met"); (5, "fac"); (6, "sys") ].

(** The tag under key [i], if any. *)
Definition stream_dic_get (i : Z) : option string :=
  snd <$> find (fun kv => fst kv =? i) stream_dic.

(** [stream_dic[i]] *)
Definition stream_dic_at (i : Z) : M value :=
  match stream_dic_get i with
  | Some tag => ret (VStr tag)
  | None => raise KeyError
  end.

(** ** class Demo *)

Module Demo.

(** [__init__]; the client built in its last line is the reply queue of the
    state. *)
Definition init (client_id client_secret : string) (debug : bool) : M unit :=
  setattr "client_id" (VStr client_id) ;;;
  setattr "client_secret" (VStr client_secret) ;;;
  setattr "debug" (VBool debug) ;;;
  setattr "token" VNone.

Definition authorize_user : M unit := method (
  current_username <- input [Lit "Enter your "; Sty MAGENTA; Lit "EMOTIV ID";
                             Sty RESET_ALL; Lit ": "] ;;
  setattr "current_username" (VStr current_username) ;;;

  result <- await_response Cortex.get_user_login [] ;;

  r0 <- item result (VInt 0) ;;
  username <- item r0 (VStr "username") ;;
  (if eq_str current_username username then
     print [Sty GREEN; Lit "Correct"; Sty RESET_ALL; Lit " "; Sty MAGENTA;
            Lit "EMOTIV ID"; Sty RESET_ALL] ;;;
     r0 <- item result (VInt 0) ;;
     last <- item r0 (VStr "lastLoginTime") ;;
     print [Lit "Last Login: "; Sty CYAN; Val last; Sty RESET_ALL]
   else
     print [Sty RED; Lit "Incorrect"; Sty RESET_ALL; Lit " "; Sty MAGENTA;
            Lit "EMOTIV ID"; Sty RESET_ALL] ;;;
     return_) ;;;

  client_id <- getattr "client_id" ;;
  client_secret <- getattr "client_secret" ;;
  result <- await_response Cortex.request_access
              [("client_id", client_id); ("client_secret", client_secret)] ;;
  granted <- item result (VStr "accessGranted") ;;
  (if eq_False granted then
     print [Sty RED; Lit "please approve this application in EMOTIV launcher";
            Sty RESET_ALL] ;;;
     return_
   else ret tt) ;;;

  token <- getattr "token" ;;
  if negb (truthy token) then
    client_id <- getattr "client_id" ;;
    client_secret <- getattr "client_secret" ;;
    result <- await_response Cortex.authorize
                [("client_id", client_id); ("client_secret", client_secret)] ;;
    new_token <- item result (VStr "cortexToken") ;;
    setattr "token" new_token
  else (* generate a new one for good measure *)
    token <- getattr "token" ;;
    client_id <- getattr "client_id" ;;
    client_secret <- getattr "client_secret" ;;
    result <- await_response Cortex.generate_new_token
                [("cortex_token", token); ("client_id", client_id);
                 ("client_secret", client_secret)] ;;
    new_token <- item result (VStr "cortexToken") ;;
    setattr "token" new_token).

Definition display_user_info : M unit := method (
  token <- getattr "token" ;;
  result <- await_response Cortex.get_user_information [("cortex_token", token)] ;;
  setattr "user_info" result ;;;
  print [Sty GREEN; Lit "user information"; Sty RESET_ALL; Lit " ---"] ;;;
  v <- item result (VStr "username") ;;
  print [Lit tab; Sty CYAN; Lit "username"; Sty RESET_ALL; Lit ": "; Val v] ;;;
  v <- item result (VStr "firstName") ;;
  print [Lit tab; Sty CYAN; Lit "first name"; Sty RESET_ALL; Lit ": "; Val v] ;;;
  v <- item result (VStr "lastName") ;;
  print [Lit tab; Sty CYAN; Lit "last name"; Sty RESET_ALL; Lit ": "; Val v] ;;;
  agreement <- item result (VStr "licenseAgreement") ;;
  v <- item agreement (VStr "accepted") ;;
  print [Lit tab; Sty CYAN; Lit "license agreement"; Sty RESET_ALL; Lit ": "; Val v]).

(** The [try] block shared by [show_subjects], [show_records] and
    [find_headset]: print the code and the message of an error reply and
    return; a missing field is a [KeyError], which is passed over. *)
Definition report_error (result : value) : M unit :=
  try_except
    (code <- item result (VStr "code") ;;
     print [Val code] ;;;
     message <- item result (VStr "message") ;;
     print [Val message] ;;;
     return_)
    KeyError
    (ret tt).

Definition show_subjects : M unit := method (
  token <- getattr "token" ;;
  result <- await_response Cortex.query_subjects
              [("cortex_token", token);
               ("query", VDict [("sex", VStr "M")]);
               ("order_by", VList [VDict [("subjectName", VStr "DESC")]])] ;;
  setattr "all_subjects" result ;;;
  report_error result ;;;

  count <- item result (VStr "count") ;;
  print [Val count; Lit " "; Sty YELLOW; Lit "subject(s)"; Sty RESET_ALL; Lit " found:"] ;;;
  count <- item result (VStr "count") ;;
  n <- lift (range_of count) ;;
  for_range n (fun i =>
    subjects <- item result (VStr "subjects") ;;
    subject <- item subjects (VInt i) ;;
    name <- item subject (VStr "subjectName") ;;
    print [Sty MAGENTA; Val (VInt i); Sty RESET_ALL; Lit ": "; Val name]) ;;;

  line <- input [Sty GREEN; Lit "Select"; Sty RESET_ALL; Lit " a "; Sty YELLOW;
                 Lit "subject"; Sty RESET_ALL; Lit " by its "; Sty MAGENTA; Lit "index";
                 Sty RESET_ALL; Lit ". ("; Sty MAGENTA; Lit "-1"; Sty RESET_ALL;
                 Lit " to create a "; Sty GREEN; Lit "new"; Sty RESET_ALL; Lit " ";
                 Sty YELLOW; Lit "subject"; Sty RESET_ALL; Lit "): "] ;;
  subject_index <- int line ;;
  setattr "subject_index" (VInt subject_index) ;;;
  setattr "current_subject" VNone).

(** [if text: params[key] = text] *)
Definition add_if_given (params : list (string * value)) (key text : string)
  : list (string * value) :=
  if truthy (VStr text) then params ++ [(key, VStr text)] else params.

Definition create_subject : M unit := method (
  token <- getattr "token" ;;
  let create_subject_params := [("cortex_token", token)] in
  print [Sty CYAN; Lit "Enter the following information"; Sty RESET_ALL; Lit ":"] ;;;
  subject_name <- input [Lit "subject name "; Sty RED; Lit "(required)"; Sty RESET_ALL;
                         Lit ": "] ;;
  setattr "subject_name" (VStr subject_name) ;;;
  let create_subject_params :=
    add_if_given create_subject_params "subject_name" subject_name in

  print [Lit "The following are "; Sty RED; Lit "NOT"; Sty RESET_ALL;
         Lit " required, press "; Sty BLUE; Lit "enter"; Sty RESET_ALL;
         Lit " to leave blank"] ;;;
  date_of_birth <- input [Lit "date of birth "; Sty CYAN; Lit "(YYYY-MM-DD)";
                          Sty RESET_ALL; Lit ": "] ;;
  let create_subject_params :=
    add_if_given create_subject_params "dateOfBirth" date_of_birth in

  sex <- input [Lit "sex "; Sty CYAN; Lit "(M, F, or U)"; Sty RESET_ALL; Lit ": "] ;;
  let create_subject_params := add_if_given create_subject_params "sex" sex in

  country_code <- input [Lit "country code "; Sty CYAN; Lit "(ex. US, GB, FI)";
                         Sty RESET_ALL; Lit ": "] ;;
  let create_subject_params :=
    add_if_given create_subject_params "countryCode" country_code in

  state <- input [Lit "state: "] ;;
  let create_subject_params := add_if_given create_subject_params "state" state in

  city <- input [Lit "city: "] ;;
  let create_subject_params := add_if_given create_subject_params "city" city in

  result <- await_response Cortex.create_subject create_subject_params ;;
  print [Sty YELLOW; Lit "Subject"; Sty RESET_ALL; Lit " "; Sty GREEN;
         Lit "successfully created!"; Sty RESET_ALL] ;;;
  setattr "current_subject" result).

Definition select_subject : M unit := method (
  all_subjects <- getattr "all_subjects" ;;
  subjects <- item all_subjects (VStr "subjects") ;;
  subject_index <- getattr "subject_index" ;;
  subject <- item subjects subject_index ;;
  setattr "current_subject" subject).

Definition display_subject_info : M unit := method (
  print [Sty YELLOW; Lit "subject"; Sty RESET_ALL; Lit " information ---"] ;;;
  current_subject <- getattr "current_subject" ;;
  for_in current_subject (fun key =>
    current_subject <- getattr "current_subject" ;;
    v <- item current_subject key ;;
    print [Sty CYAN; Val key; Sty RESET_ALL; Lit ": "; Val v])).

Definition show_records : M unit := method (
  token <- getattr "token" ;;
  current_subject <- getattr "current_subject" ;;
  keyword <- item current_subject (VStr "subjectName") ;;
  result <- await_response Cortex.query_records
              [("cortex_token", token);
               ("query", VDict [("keyword", keyword)]);
               ("order_by", VList [VDict [("startDatetime", VStr "DESC")]])] ;;
  setattr "all_records" result ;;;
  report_error result ;;;

  count <- item result (VStr "count") ;;
  current_subject <- getattr "current_subject" ;;
  name <- item current_subject (VStr "subjectName") ;;
  print [Val count; Lit " "; Sty YELLOW; Lit "record(s)"; Sty RESET_ALL;
         Lit " found for "; Sty MAGENTA; Val name; Sty RESET_ALL; Lit ":"] ;;;
  count <- item result (VStr "count") ;;
  n <- lift (range_of count) ;;
  for_range n (fun i =>
    records <- item result (VStr "records") ;;
    record <- item records (VInt i) ;;
    title <- item record (VStr "title") ;;
    print [Sty MAGENTA; Val (VInt i); Sty RESET_ALL; Lit ": "; Val title]) ;;;

  line <- input [Sty GREEN; Lit "Select"; Sty RESET_ALL; Lit " a "; Sty YELLOW;
                 Lit "record"; Sty RESET_ALL; Lit " by its "; Sty MAGENTA; Lit "index";
                 Sty RESET_ALL; Lit ". ("; Sty MAGENTA; Lit "-1"; Sty RESET_ALL;
                 Lit " to create a "; Sty GREEN; Lit "new"; Sty RESET_ALL; Lit " ";
                 Sty YELLOW; Lit "record"; Sty RESET_ALL; Lit "): "] ;;
  record_index <- int line ;;
  setattr "record_index" (VInt record_index) ;;;
  setattr "current_record" VNone).

Definition display_record_info : M unit := method (
  all_records <- getattr "all_records" ;;
  records <- item all_records (VStr "records") ;;
  record_index <- getattr "record_index" ;;
  record <- item records record_index ;;
  uuid <- item record (VStr "uuid") ;;
  setattr "record_ids" (VList [uuid]) ;;;
  token <- getattr "token" ;;
  record_ids <- getattr "record_ids" ;;
  result <- await_response Cortex.get_record_infos
              [("cortex_token", token); ("record_ids", record_ids)] ;;
  r0 <- item result (VInt 0) ;;
  setattr "current_record" r0 ;;;

  print [Sty YELLOW; Lit "record"; Sty RESET_ALL; Lit " information ---"] ;;;

  current_record <- getattr "current_record" ;;
  for_in current_record (fun key =>
    current_record <- getattr "current_record" ;;
    v <- item current_record key ;;
    print [Sty CYAN; Val key; Sty RESET_ALL; Lit ": "; Val v])).

Definition find_headset : M unit := method (
  result <- await_response Cortex.control_device [("command", VStr "refresh")] ;;
  print [Sty MAGENTA; Val result; Sty RESET_ALL] ;;;
  warning <- await_warning ;; (* warning 142 - headset scan finished *)
  print [Val warning] ;;;
  result <- await_response Cortex.query_headsets [] ;;
  print [Sty GREEN; Lit "headset(s) found!"; Sty RESET_ALL] ;;;
  for_in result (fun hs =>
    id <- item hs (VStr "id") ;;
    print [Lit "- "; Val id]) ;;;
  headset <- item result (VInt 0) ;;
  setattr "headset" headset ;;;
  headset <- getattr "headset" ;;
  headset_id <- item headset (VStr "id") ;;
  setattr "headset_id" headset_id ;;;
  headset_id <- getattr "headset_id" ;;
  result <- await_response Cortex.control_device
              [("command", VStr "connect"); ("headset_id", headset_id)] ;;
  print [Sty GREEN; Val result; Sty RESET_ALL] ;;;
  warning <- await_warning ;; (* warning 100, 101, 102 or 113 - connected *)
  print [Sty GREEN; Val warning; Sty RESET_ALL] ;;;

  token <- getattr "token" ;;
  headset_id <- getattr "headset_id" ;;
  result <- await_response Cortex.create_session
              [("cortex_token", token); ("headset_id", headset_id);
               ("status", VStr "open")] ;;
  report_error result ;;;

  session_id <- item result (VStr "id") ;;
  setattr "session_id" session_id).

Definition pick_prompt : list piece :=
  [Lit "pick a "; Sty YELLOW; Lit "stream"; Sty RESET_ALL; Lit " from the available ";
   Sty YELLOW; Lit "streams"; Sty RESET_ALL; Lit " ("; Sty MAGENTA; Lit "-1";
   Sty RESET_ALL; Lit " to finish picking): "].

Definition added_text : list piece :=
  [Lit "stream "; Sty GREEN; Lit "added!"; Sty RESET_ALL].

Definition already_text : list piece :=
  [Lit "stream "; Sty RED; Lit "already entered"; Sty RESET_ALL].

(** The [while] loop of [select_streams] (lines 211-217); every turn reads
    one line, so a bound above the number of lines left is never reached. *)
Fixpoint pick_streams (fuel : nat) (stream_index : Z) : M unit :=
  if (stream_index >=? 0) && (stream_index <=? 6) then
    match fuel with
    | O => fun st => Stop OutOfFuel st
    | S fuel' =>
        line <- input pick_prompt ;;
        stream_index <- int line ;;
        streams <- getattr "streams" ;;
        fresh <- not_in stream_index streams ;;
        (if fresh then
           streams <- getattr "streams" ;;
           streams <- append streams (VInt stream_index) ;;
           setattr "streams" streams ;;;
           print added_text
         else
           print already_text) ;;;
        pick_streams fuel' stream_index
    end
  else ret tt.

(** Lines 209-217 of [select_streams]: the list starts empty, the index at
    0, and the loop runs. *)
Definition collect_streams : M unit :=
  setattr "streams" (VList []) ;;;
  let stream_index := 0 in
  fun st => pick_streams (S (length (stdin st))) stream_index st.

(** Lines 219-220 of [select_streams]. *)
Definition translate_streams : M unit :=
  streams <- getattr "streams" ;;
  n <- len streams ;;
  for_range n (fun i =>
    tag <- stream_dic_at i ;;
    streams <- getattr "streams" ;;
    streams <- store streams (Z.to_nat i) tag ;;
    setattr "streams" streams).

Definition select_streams : M unit := method (
  print [Sty GREEN; Lit "available"; Sty RESET_ALL; Lit " streams ---"] ;;;
  for_each (map fst stream_dic) (fun key =>
    tag <- stream_dic_at key ;;
    print [Sty MAGENTA; Val (VInt key); Sty RESET_ALL; Lit ": "; Val tag]) ;;;

  collect_streams ;;;

  translate_streams ;;;

  streams <- getattr "streams" ;;
  print [Sty YELLOW; Lit "streams"; Sty RESET_ALL; Lit ": "; Val streams] ;;;
  token <- getattr "token" ;;
  session_id <- getattr "session_id" ;;
  streams <- getattr "streams" ;;
  result <- await_response Cortex.subscribe
              [("cortex_token", token); ("session_id", session_id);
               ("streams", streams)] ;;
  success <- item result (VStr "success") ;;
  print [Sty GREEN; Lit "success"; Sty RESET_ALL; Lit ": "; Val success] ;;;
  failure <- item result (VStr "failure") ;;
  print [Sty RED; Lit "failure"; Sty RESET_ALL; Lit ": "; Val failure]).

Definition create_record : M unit := method (
  find_headset ;;;

  select_streams ;;;

  session_id <- getattr "session_id" ;;
  token <- getattr "token" ;;
  let create_record_params := [("session_id", session_id); ("cortex_token", token)] in
  print [Sty CYAN; Lit "Enter the following information"; Sty RESET_ALL; Lit ":"] ;;;
  title <- input [Lit "title "; Sty RED; Lit "(required)"; Sty RESET_ALL; Lit ": "] ;;
  let create_record_params := add_if_given create_record_params "title" title in

  print [Lit "The following are "; Sty RED; Lit "NOT"; Sty RESET_ALL;
         Lit " required, press "; Sty BLUE; Lit "enter"; Sty RESET_ALL;
         Lit " to leave blank"] ;;;
  subject_name <- input [Lit "subject name: "] ;;
  create_record_params <-
    (if truthy (VStr subject_name) then
       ret (create_record_params ++ [("subjectName", VStr subject_name)])
     else
       _ <- getattr "subject_name" ;;
       ret create_record_params) ;;

  description <- input [Lit "description: "] ;;
  let create_record_params :=
    add_if_given create_record_params "description" description in
  (* the update_session and create_record calls are commented out *)
  ret tt).

End Demo.

(** ** The script below the class *)

Definition client_id : string := "".
Definition client_secret : string := "".
Definition debug : bool := false.

Definition main : M unit :=
  Demo.init client_id client_secret debug ;;;

  Demo.authorize_user ;;;
  Demo.display_user_info ;;;

  Demo.show_subjects ;;;
  subject_index <- getattr "subject_index" ;;
  (if eq_int (-1) subject_index then Demo.create_subject else Demo.select_subject) ;;;

  Demo.display_subject_info ;;;

  Demo.show_records ;;;
  record_index <- getattr "record_index" ;;
  (if eq_int (-1) record_index then Demo.create_record else Demo.display_record_info) ;;;

  emit Close.

(** A fresh process: nothing set on the instance, nothing printed yet. *)
Definition boot (lines : list string) (answers notices : list value) : state :=
  State ∅ lines answers notices [].

(** The calls sent to the client, oldest first. *)
Definition calls (tr : list event) : list (Cortex.api * list (string * value)) :=
  omap (fun e => match e with Call a kw => Some (a, kw) | _ => None end) tr.

Definition final {A} (r : outcome A) : state :=
  match r with Ok _ st => st | Stop _ st => st end.

(** ** Observations on a run *)

(** Why the run stopped, if it did not reach its end. *)
Definition status {A} (r : outcome A) : option signal :=
  match r with Ok _ _ => None | Stop why _ => Some why end.

(** The stream lists handed to [subscribe], oldest first. *)
Definition subscribed (tr : list event) : list value :=
  omap (fun c => match fst c with
                 | Cortex.subscribe => assoc "streams" (snd c)
                 | _ => None
                 end) (calls tr).

(** Whether [close] was called on the client. *)
Definition closed (tr : list event) : bool :=
  existsb (fun e => match e with Close => true | _ => false end) tr.

(** The tags of [stream_dic] in key order. *)
Definition tags : list string := map snd stream_dic.

(** A typed line that [int] reads as [z]. *)
Definition reads (line : string) (z : Z) : Prop := py_int line = Some z.

(** The loop condition [stream_index >= 0 and stream_index <= 6]. *)
Definition in_range (z : Z) : Prop := 0 <= z <= 6.

#[global] Instance in_range_dec z : Decision (in_range z).
Proof. unfold in_range. apply _. Defined.

(** The picks in the order of their first occurrence, after [seen]. *)
Definition first_picks (seen zs : list Z) : list Z :=
  fold_left (fun acc z => if existsb (Z.eqb z) acc then acc else acc ++ [z]) zs seen.

(** The body of the loop of lines 219-220. *)
Definition translate_body (i : Z) : M unit :=
  tag <- stream_dic_at i ;;
  streams <- getattr "streams" ;;
  streams <- store streams (Z.to_nat i) tag ;;
  setattr "streams" streams.

(** What [m] turns of that loop, from position [k] on, leave in [l]. *)
Fixpoint retag (k m : nat) (l : list value) : list value :=
  match m with
  | O => l
  | S m' => retag (S k) m' (match tags !! k with
                            | Some tag => <[k := VStr tag]> l
                            | None => l
                            end)
  end.



(** The keyword arguments of the two queries. *)
Definition subjects_query (token : value) : list (string * value) :=
  [("cortex_token", token);
   ("query", VDict [("sex", VStr "M")]);
   ("order_by", VList [VDict [("subjectName", VStr "DESC")]])].

Definition records_query (token keyword : value) : list (string * value) :=
  [("cortex_token", token);
   ("query", VDict [("keyword", keyword)]);
   ("order_by", VList [VDict [("startDatetime", VStr "DESC")]])].

(** ** The runs used as examples *)

Definition login_account : value :=
  VDict [("username", VStr "alice"); ("lastLoginTime", VStr "2024-05-01T10:00:00")].

Definition login_reply : value := VList [login_account].

Definition access_reply (granted : bool) : value :=
  VDict [("accessGranted", VBool granted)].

Definition token_reply : value := VDict [("cortexToken", VStr "tok-1")].

Definition user_reply : value :=
  VDict [("username", VStr "alice"); ("firstName", VStr "Alice");
         ("lastName", VStr "Liddell");
         ("licenseAgreement", VDict [("accepted", VBool true)])].

Definition subjects_reply : value :=
  VDict [("count", VInt 2);
         ("subjects", VList [VDict [("subjectName", VStr "Zed")];
                             VDict [("subjectName", VStr "Ann")]])].

Definition records_reply : value :=
  VDict [("count", VInt 2);
         ("records", VList [VDict [("title", VStr "second"); ("uuid", VStr "u-2")];
                            VDict [("title", VStr "first"); ("uuid", VStr "u-1")]])].

Definition error_reply : value :=
  VDict [("code", VInt 5); ("message", VStr "no access")].

(** The replies of a server that grants everything and knows one headset. *)
Definition good_replies : list value :=
  [ login_reply; access_reply true; token_reply; user_reply; subjects_reply;
    records_reply;
    VDict [("command", VStr "refresh")];
    VList [VDict [("id", VStr "EPOCX-1")]];
    VDict [("command", VStr "connect")];
    VDict [("id", VStr "sess-1")];
    VDict [("success", VList []); ("failure", VList [])] ].

Definition good_warnings : list value :=
  [ VDict [("code", VInt 142)]; VDict [("code", VInt 102)] ].

(** The operator types the right identifier, takes subject 0, asks for a new
    record, types [picks] at the stream prompt and fills in the record. *)
Definition session (picks : list string) : state :=
  boot (["alice"; "0"; "-1"] ++ picks ++ ["session one"; "Ann"; ""])
       good_replies good_warnings.



(** The subject query is answered by an error. *)
Definition session_subjects_error : state :=
  boot ["alice"; "0"]
       [login_reply; access_reply true; token_reply; user_reply; error_reply] [].

(** The identifier is typed with a capital; the server, asked for the user
    without a token, answers with an error. *)
Definition session_mismatch : state :=
  boot ["Alice"] [login_reply; error_reply] [].

(** The identifier is wrong and the server answers the next requests all the
    same. *)
Definition session_mismatch_answered : state :=
  boot ["bob"; "0"] [login_reply; user_reply; subjects_reply] [].

(** Access is not granted and the server answers the next requests all the
    same. *)
Definition session_not_granted : state :=
  boot ["alice"; "0"] [login_reply; access_reply false; user_reply; subjects_reply] [].

(** The attributes of an instance that already holds a token. *)
Definition returning : gmap string value :=
  <["token" := VStr "tok-0"]>
    (<["client_id" := VStr "id"]> (<["client_secret" := VStr "secret"]> ∅)).

(** An instance that holds a token and a session, about to select streams. *)
Definition ready (lines : list string) : state :=
  State (<["token" := VStr "tok-1"]> (<["session_id" := VStr "sess-1"]> ∅))
        lines [VDict [("success", VList []); ("failure", VList [])]] [] [].

(** ** Definitions for the properties of the other methods *)

(** The events of the methods: anything but [close] and the two requests
    that [create_record] has commented out. *)
Definition method_event (e : event) : bool :=
  match e with
  | Close => false
  | Call Cortex.create_record _ | Call Cortex.update_session _ => false
  | _ => true
  end.

(** The requests that the source has commented out. *)
Definition withheld (api : Cortex.api) : bool :=
  match api with
  | Cortex.create_record | Cortex.update_session => true
  | _ => false
  end.

(** [m] only adds events accepted by [p] to the trace, however it ends. *)
Definition adds (p : event -> bool) {A} (m : M A) : Prop :=
  forall st, exists evs,
    trace (final (m st)) = trace st ++ evs /\ forallb p evs = true.

(** [m] ends normally exactly when the last thing it did was [close]; before
    that, and in the runs that stop early, it stays within [method_event]. *)
Definition closes_last {A} (m : M A) : Prop :=
  forall st, exists evs,
    trace (final (m st)) = trace st ++ evs
    /\ ((status (m st) = None
         /\ exists evs', evs = evs' ++ [Close] /\ forallb method_event evs' = true)
        \/ (status (m st) <> None /\ forallb method_event evs = true)).

(** The fields of a form that were filled in, as keyword arguments. *)
Fixpoint given (fields : list (string * string)) : list (string * value) :=
  match fields with
  | [] => []
  | (key, text) :: rest =>
      if String.eqb text "" then given rest else (key, VStr text) :: given rest
  end.

(** The line printed for one discovered headset. *)
Definition headset_line (id : value) : event := Print [Lit "- "; Val id].

(** The requests of [find_headset] for the token [tok] and the headset [id]. *)
Definition connect_calls (tok id : value) : list (Cortex.api * list (string * value)) :=
  [(Cortex.control_device, [("command", VStr "refresh")]);
   (Cortex.query_headsets, []);
   (Cortex.control_device, [("command", VStr "connect"); ("headset_id", id)]);
   (Cortex.create_session,
    [("cortex_token", tok); ("headset_id", id); ("status", VStr "open")])].

(** The line printed for one field of a dict. *)
Definition field_line (kv : string * value) : event :=
  Print [Sty CYAN; Val (VStr (fst kv)); Sty RESET_ALL; Lit ": "; Val (snd kv)].

(** The line printed for entry [i] of a listing. *)
Definition entry_line (i : nat) (name : value) : event :=
  Print [Sty MAGENTA; Val (VInt (Z.of_nat i)); Sty RESET_ALL; Lit ": "; Val name].

(** The lines of a listing that starts at position [k]. *)
Fixpoint entry_lines (k : nat) (names : list value) : list event :=
  match names with
  | [] => []
  | name :: rest => entry_line k name :: entry_lines (S k) rest
  end.

(** The parts of [select_streams] before and after its two loops (lines
    205-207 and 222-225). *)
Definition announce_streams : M unit :=
  print [Sty GREEN; Lit "available"; Sty RESET_ALL; Lit " streams ---"] ;;;
  for_each (map fst stream_dic) (fun key =>
    tag <- stream_dic_at key ;;
    print [Sty MAGENTA; Val (VInt key); Sty RESET_ALL; Lit ": "; Val tag]).

Definition submit_streams : M unit :=
  streams <- getattr "streams" ;;
  print [Sty YELLOW; Lit "streams"; Sty RESET_ALL; Lit ": "; Val streams] ;;;
  token <- getattr "token" ;;
  session_id <- getattr "session_id" ;;
  streams <- getattr "streams" ;;
  result <- await_response Cortex.subscribe
              [("cortex_token", token); ("session_id", session_id);
               ("streams", streams)] ;;
  success <- item result (VStr "success") ;;
  print [Sty GREEN; Lit "success"; Sty RESET_ALL; Lit ": "; Val success] ;;;
  failure <- item result (VStr "failure") ;;
  print [Sty RED; Lit "failure"; Sty RESET_ALL; Lit ": "; Val failure].

(** Lines 131-150 of [create_record]: the form that follows the two
    sub-steps. *)
Definition record_form : M unit :=
  session_id <- getattr "session_id" ;;
  token <- getattr "token" ;;
  let create_record_params := [("session_id", session_id); ("cortex_token", token)] in
  print [Sty CYAN; Lit "Enter the following information"; Sty RESET_ALL; Lit ":"] ;;;
  title <- input [Lit "title "; Sty RED; Lit "(required)"; Sty RESET_ALL; Lit ": "] ;;
  let create_record_params := Demo.add_if_given create_record_params "title" title in

  print [Lit "The following are "; Sty RED; Lit "NOT"; Sty RESET_ALL;
         Lit " required, press "; Sty BLUE; Lit "enter"; Sty RESET_ALL;
         Lit " to leave blank"] ;;;
  subject_name <- input [Lit "subject name: "] ;;
  create_record_params <-
    (if truthy (VStr subject_name) then
       ret (create_record_params ++ [("subjectName", VStr subject_name)])
     else
       _ <- getattr "subject_name" ;;
       ret create_record_params) ;;

  description <- input [Lit "description: "] ;;
  let create_record_params :=
    Demo.add_if_given create_record_params "description" description in
  ret tt.

(** ** Values for the examples of these properties *)

(** The attributes after a subject and a record were listed and picked. *)
Definition browsing : gmap string value :=
  <["token" := VStr "tok-1"]>
    (<["all_subjects" := subjects_reply]>
       (<["subject_index" := VInt (-2)]>
          (<["current_subject" := VDict [("subjectName", VStr "Zed"); ("sex", VStr "M")]]>
             (<["all_records" := records_reply]>
                (<["record_index" := VInt 1]> ∅))))).

Definition record_info_reply : value :=
  VList [VDict [("uuid", VStr "u-1"); ("title", VStr "first")]].

(** * Properties *)

(** ** Running the monad by hand *)

Ltac exec :=
  cbv beta iota delta
    [bind ret raise lift return_ method emit print input getattr setattr item
     await_response await_warning len not_in append store negb
     self stdin replies warnings trace].

Ltac exec_all :=
  cbv beta iota delta
    [bind ret raise lift return_ method emit print input getattr setattr item
     await_response await_warning len not_in append store negb try_except
     Demo.report_error subscript
     self stdin replies warnings trace].

(** Look an attribute up through the assignments made since the state [s]. *)
Ltac attrs :=
  repeat (first [ rewrite lookup_insert_eq
                | rewrite lookup_insert_ne by discriminate
                | match goal with
                  | H : ?s !! ?name = Some _ |- context [?s !! ?name] => rewrite H
                  end ];
          exec).

Section Monad.

Context {A B : Type}.

Lemma bind_Ok (m : M A) (f : A -> M B) st a st' :
  m st = Ok a st' -> bind m f st = f a st'.
Proof. intros H. unfold bind. now rewrite H. Qed.

Lemma bind_Stop (m : M A) (f : A -> M B) st why st' :
  m st = Stop why st' -> bind m f st = Stop why st'.
Proof. intros H. unfold bind. now rewrite H. Qed.

End Monad.

Lemma method_final body st : final (method body st) = final (body st).
Proof. unfold method. destruct (body st) as [[] ?|[] ?]; reflexivity. Qed.

(** ** Reading an integer *)

Lemma int_reads line z : reads line z -> int line = ret z.
Proof.
  unfold reads, py_int, int. destruct (ascii_text line); [|discriminate].
  now intros ->.
Qed.

Lemma int_unreadable line : unreadable line = true -> int line = raise ValueError.
Proof.
  unfold unreadable, int. destruct (ascii_text line); [|discriminate].
  now destruct (parse_int line).
Qed.

(** What [int] can do with a line. *)
Lemma int_outcome line :
  (exists z, reads line z /\ int line = ret z)
  \/ int line = raise ValueError
  \/ int line = (fun st => Stop Foreign st).
Proof.
  unfold reads, py_int, int. destruct (ascii_text line); [|now right; right].
  destruct (parse_int line) as [z|]; [left; now exists z | now right; left].
Qed.

(** ** The calls of a trace *)

Lemma calls_app t1 t2 : calls (t1 ++ t2) = calls t1 ++ calls t2.
Proof. apply omap_app. Qed.

Lemma calls_quiet t evs : calls evs = [] -> calls (t ++ evs) = calls t.
Proof. intros H. now rewrite calls_app, H, app_nil_r. Qed.

Lemma calls_print t text : calls (t ++ [Print text]) = calls t.
Proof. now apply calls_quiet. Qed.

Lemma calls_prompt t text : calls (t ++ [Prompt text]) = calls t.
Proof. now apply calls_quiet. Qed.

Lemma calls_call t api kw : calls (t ++ [Call api kw]) = calls t ++ [(api, kw)].
Proof. now rewrite calls_app. Qed.

Ltac trace_calls :=
  cbn [final trace];
  repeat first
    [ rewrite calls_print | rewrite calls_prompt | rewrite calls_call
    | rewrite calls_quiet by assumption ].

(** ** The picks of the operator *)

Lemma in_range_test z : in_range z -> (z >=? 0) && (z <=? 6) = true.
Proof. unfold in_range. intros [H1 H2]. apply andb_true_intro. split; lia. Qed.

Lemma out_of_range_test z : ~ in_range z -> (z >=? 0) && (z <=? 6) = false.
Proof.
  unfold in_range. intros H. apply andb_false_iff.
  destruct (Z.leb_spec z 6); [left | right; reflexivity].
  rewrite Z.geb_leb. apply Z.leb_gt. lia.
Qed.

Lemma int_in_ints z seen : int_in z (map VInt seen) = existsb (Z.eqb z) seen.
Proof.
  unfold int_in. induction seen as [|a seen IH]; simpl; [reflexivity|]. now rewrite IH.
Qed.

Lemma existsb_eqb_elem z (l : list Z) : existsb (Z.eqb z) l = true <-> z ∈ l.
Proof.
  rewrite existsb_exists, list_elem_of_In. split.
  - intros (x & Hx & E). apply Z.eqb_eq in E. now subst.
  - intros H. exists z. split; [assumption | apply Z.eqb_refl].
Qed.

Lemma first_picks_cons seen z zs :
  first_picks seen (z :: zs) =
  first_picks (if existsb (Z.eqb z) seen then seen else seen ++ [z]) zs.
Proof. reflexivity. Qed.

Lemma first_picks_snoc seen zs v :
  first_picks seen (zs ++ [v]) =
  if existsb (Z.eqb v) (first_picks seen zs) then first_picks seen zs
  else first_picks seen zs ++ [v].
Proof. unfold first_picks. now rewrite fold_left_app. Qed.

Lemma first_picks_elem seen zs x :
  x ∈ first_picks seen zs <-> x ∈ seen \/ x ∈ zs.
Proof.
  revert seen. induction zs as [|z zs IH]; intros seen.
  - cbn. rewrite elem_of_nil. tauto.
  - rewrite first_picks_cons, IH, elem_of_cons.
    destruct (existsb (Z.eqb z) seen) eqn:E.
    + apply existsb_eqb_elem in E. split; [tauto|]. intros [H|[->|H]]; tauto.
    + rewrite elem_of_app, list_elem_of_singleton. tauto.
Qed.

Lemma NoDup_snoc_fresh (seen : list Z) z :
  NoDup seen -> existsb (Z.eqb z) seen = false -> NoDup (seen ++ [z]).
Proof.
  intros Hnd E. apply NoDup_app. repeat split; [assumption| |apply NoDup_singleton].
  intros x Hx ->%list_elem_of_singleton. apply existsb_eqb_elem in Hx. congruence.
Qed.

Lemma first_picks_NoDup seen zs : NoDup seen -> NoDup (first_picks seen zs).
Proof.
  revert seen. induction zs as [|z zs IH]; intros seen Hs; [assumption|].
  rewrite first_picks_cons. apply IH.
  destruct (existsb (Z.eqb z) seen) eqn:E; [assumption|]. now apply NoDup_snoc_fresh.
Qed.

(** [first_picks] keeps one entry for each distinct pick. *)
Lemma first_picks_length zs :
  length (first_picks [] zs) = size (list_to_set zs : gset Z).
Proof.
  rewrite <- (size_list_to_set (C := gset Z) (first_picks [] zs))
    by (apply first_picks_NoDup; constructor).
  f_equal. apply set_eq. intros x.
  rewrite !elem_of_list_to_set, first_picks_elem, elem_of_nil. tauto.
Qed.

(** A value outside the range was not picked before: it is appended. *)
Lemma first_picks_terminator zs v :
  Forall in_range zs -> ~ in_range v ->
  first_picks [] (zs ++ [v]) = first_picks [] zs ++ [v].
Proof.
  intros Hzs Hv. rewrite first_picks_snoc.
  destruct (existsb (Z.eqb v) (first_picks [] zs)) eqn:E; [|reflexivity].
  apply existsb_eqb_elem, first_picks_elem in E. destruct E as [E|E].
  - inversion E.
  - rewrite Forall_forall in Hzs. now apply Hzs in E.
Qed.

(** ** The selection loop *)

(** One turn of the loop on a line that reads as an integer. *)
Lemma pick_streams_turn fuel idx s line rest r w t items z :
  in_range idx ->
  s !! "streams" = Some (VList items) ->
  reads line z ->
  Demo.pick_streams (S fuel) idx (State s (line :: rest) r w t) =
  Demo.pick_streams fuel z
    (if int_in z items
     then State s rest r w
            (t ++ [Prompt Demo.pick_prompt; Print Demo.already_text])
     else State (<["streams" := VList (items ++ [VInt z])]> s) rest r w
            (t ++ [Prompt Demo.pick_prompt; Print Demo.added_text])).
Proof.
  intros Hidx Hs Hz. cbn [Demo.pick_streams]. rewrite (in_range_test _ Hidx).
  exec. rewrite (int_reads _ _ Hz). exec. rewrite Hs. exec.
  destruct (int_in z items); exec.
  - now rewrite <- app_assoc.
  - rewrite Hs. exec. now rewrite <- app_assoc.
Qed.

Lemma pick_streams_stop fuel idx st :
  ~ in_range idx -> Demo.pick_streams fuel idx st = Ok tt st.
Proof.
  intros H. destruct fuel; cbn [Demo.pick_streams]; now rewrite (out_of_range_test _ H).
Qed.

(** The loop on picks in range followed by a value outside the range. *)
Lemma pick_streams_run lines zs :
  Forall2 reads lines zs -> Forall in_range zs ->
  forall fuel idx s seen last v rest r w t,
    in_range idx -> (length lines < fuel)%nat ->
    s !! "streams" = Some (VList (map VInt seen)) ->
    reads last v -> ~ in_range v ->
    exists evs,
      Demo.pick_streams fuel idx (State s (lines ++ last :: rest) r w t) =
      Ok tt (State (<["streams" := VList (map VInt (first_picks seen (zs ++ [v])))]> s)
               rest r w (t ++ evs))
      /\ calls evs = [].
Proof.
  induction 1 as [|line z lines zs Hz _ IH];
    intros Hzs fuel idx s seen last v rest r w t Hidx Hfuel Hs Hlast Hv;
    (destruct fuel as [|fuel]; [cbn in Hfuel; lia|]); cbn [app].
  - rewrite (pick_streams_turn _ _ _ _ _ _ _ _ _ _ Hidx Hs Hlast).
    rewrite int_in_ints, first_picks_cons.
    destruct (existsb (Z.eqb v) seen) eqn:E; rewrite pick_streams_stop by assumption;
      cbn [first_picks fold_left]; eexists.
    + split; [rewrite insert_id by assumption; reflexivity | reflexivity].
    + split; [rewrite map_app; reflexivity | reflexivity].
  - apply Forall_cons in Hzs. destruct Hzs as [Hzr Hzs].
    rewrite (pick_streams_turn _ _ _ _ _ _ _ _ _ _ Hidx Hs Hz).
    rewrite int_in_ints, first_picks_cons.
    destruct (existsb (Z.eqb z) seen) eqn:E.
    + destruct (IH Hzs fuel z s seen last v rest r w
                  (t ++ [Prompt Demo.pick_prompt; Print Demo.already_text]))
        as (evs & -> & Hq); try assumption; [cbn in Hfuel; lia|].
      eexists. rewrite <- app_assoc. split; [reflexivity | exact Hq].
    + destruct (IH Hzs fuel z (<["streams" := VList (map VInt seen ++ [VInt z])]> s)
                  (seen ++ [z]) last v rest r w
                  (t ++ [Prompt Demo.pick_prompt; Print Demo.added_text]))
        as (evs & -> & Hq); try assumption; [cbn in Hfuel; lia| |].
      * rewrite lookup_insert_eq, map_app. reflexivity.
      * eexists. rewrite <- app_assoc, insert_insert_eq. split; [reflexivity | exact Hq].
Qed.


(** A bound above the number of lines left is never reached. *)
Lemma pick_streams_fuel fuel :
  forall idx st items,
    (length (stdin st) < fuel)%nat ->
    self st !! "streams" = Some (VList items) ->
    status (Demo.pick_streams fuel idx st) <> Some OutOfFuel.
Proof.
  induction fuel as [|fuel IH]; intros idx st items Hfuel Hs; [lia|].
  destruct (decide (in_range idx)) as [Hidx|Hidx];
    [|rewrite pick_streams_stop by assumption; discriminate].
  destruct st as [s [|line rest] r w t]; cbn [self stdin] in *.
  - cbn [Demo.pick_streams]. rewrite (in_range_test _ Hidx). exec. discriminate.
  - destruct (int_outcome line) as [(z & Hz & _)|[Hint|Hint]].
    + rewrite (pick_streams_turn _ _ _ _ _ _ _ _ _ _ Hidx Hs Hz).
      destruct (int_in z items).
      * apply (IH z _ items); [cbn in *; lia | exact Hs].
      * apply (IH z _ (items ++ [VInt z])); [cbn in *; lia | apply lookup_insert_eq].
    + cbn [Demo.pick_streams]. rewrite (in_range_test _ Hidx). exec. rewrite Hint.
      discriminate.
    + cbn [Demo.pick_streams]. rewrite (in_range_test _ Hidx). exec. rewrite Hint.
      discriminate.
Qed.

Lemma collect_streams_fuel st : status (Demo.collect_streams st) <> Some OutOfFuel.
Proof.
  unfold Demo.collect_streams. exec.
  apply (pick_streams_fuel _ _ _ []); [cbn; lia | apply lookup_insert_eq].
Qed.


(** Lines 209-217 on picks in range followed by a value outside the range:
    the picks are kept in the order of their first occurrence and the last
    value is appended after them. *)
Lemma collect_streams_run lines zs last v rest s r w t :
  Forall2 reads lines zs -> Forall in_range zs -> reads last v -> ~ in_range v ->
  exists evs,
    Demo.collect_streams (State s (lines ++ last :: rest) r w t) =
    Ok tt (State (<["streams" := VList (map VInt (first_picks [] zs ++ [v]))]> s)
             rest r w (t ++ evs))
    /\ calls evs = [].
Proof.
  intros Hl Hzs Hlast Hv. unfold Demo.collect_streams. exec.
  destruct (pick_streams_run lines zs Hl Hzs (S (length (lines ++ last :: rest))) 0
              (<["streams" := VList []]> s) [] last v rest r w t)
    as (evs & -> & Hq); try assumption.
  - unfold in_range. lia.
  - rewrite length_app. lia.
  - apply lookup_insert_eq.
  - exists evs. now rewrite insert_insert_eq, first_picks_terminator.
Qed.

(** ** Lines 219-220: from indices to tags *)

Lemma stream_dic_at_tag k tag :
  tags !! k = Some tag -> stream_dic_at (Z.of_nat k) = ret (VStr tag).
Proof.
  intros H. do 7 (destruct k as [|k]; [injection H as <-; reflexivity|]). discriminate.
Qed.



Lemma translate_loop m :
  forall k s i r w t (l : list value),
    s !! "streams" = Some (VList l) ->
    (k + m <= length l)%nat -> (k + m <= 7)%nat ->
    for_each (map Z.of_nat (seq k m)) translate_body (State s i r w t) =
    Ok tt (State (<["streams" := VList (retag k m l)]> s) i r w t).
Proof.
  induction m as [|m IH]; intros k s i r w t l Hs Hlen Hk.
  - cbn. now rewrite insert_id.
  - destruct (lookup_lt_is_Some_2 tags k) as [tag Htag]; [cbn; lia|].
    cbn [seq map for_each retag]. rewrite Htag.
    unfold bind at 1. unfold translate_body at 1.
    assert (Hlt : (k <? length l)%nat = true) by (apply Nat.ltb_lt; lia).
    rewrite (stream_dic_at_tag _ _ Htag). exec. rewrite Hs, Nat2Z.id, Hlt.
    rewrite (IH (S k) _ i r w t (<[k := VStr tag]> l)).
    + now rewrite insert_insert_eq.
    + apply lookup_insert_eq.
    + rewrite length_insert. lia.
    + lia.
Qed.



(** ** [select_streams] as a whole *)



(** ** Stream selection: what holds for every sequence of picks *)

Section Picks.

(** The operator types [lines], which read as the picks [zs], all in range,
    then [last], which reads as a value [v] outside the range; [rest] is
    whatever is typed afterwards. *)
Variables (lines : list string) (zs : list Z) (last : string) (v : Z).
Variable rest : list string.
Hypothesis Hlines : Forall2 reads lines zs.
Hypothesis Hzs : Forall in_range zs.
Hypothesis Hlast : reads last v.
Hypothesis Hv : ~ in_range v.

Variables (s : gmap string value) (r w : list value) (t : list event).

(** C7. The selection loop ends on the first value outside [0,6], whatever
    that value is (below 0, above 6, not only -1): it returns normally and
    has read the lines up to that value and none after it. *)
Theorem selection_loop_terminates :
  exists st',
    Demo.collect_streams (State s (lines ++ last :: rest) r w t) = Ok tt st'
    /\ stdin st' = rest.
Proof.
  destruct (collect_streams_run lines zs last v rest s r w t Hlines Hzs Hlast Hv)
    as (evs & H & _).
  eexists. split; [exact H | reflexivity].
Qed.

Variables tok sid : value.
Hypothesis Htok : s !! "token" = Some tok.
Hypothesis Hsid : s !! "session_id" = Some sid.



End Picks.

(** Two picks, one of them repeated, then 9. *)
Lemma selection_loop_terminates_witness :
  Forall2 reads ["2"; "5"; "2"] [2; 5; 2]
  /\ Forall in_range [2; 5; 2]
  /\ reads "9" 9
  /\ ~ in_range 9
  /\ exists st',
       Demo.collect_streams (State ∅ (["2"; "5"; "2"] ++ "9" :: ["1"]) [] [] [])
         = Ok tt st'
       /\ stdin st' = ["1"].
Proof.
  assert (H1 : Forall2 reads ["2"; "5"; "2"] [2; 5; 2]) by (repeat constructor).
  assert (H2 : Forall in_range [2; 5; 2]) by (repeat constructor; unfold in_range; lia).
  assert (H3 : reads "9" 9) by reflexivity.
  assert (H4 : ~ in_range 9) by (unfold in_range; lia).
  repeat split; try assumption.
  exact (selection_loop_terminates _ _ _ _ ["1"] H1 H2 H3 H4 ∅ [] [] []).
Defined.





(** ** Error replies *)

(** C6. On a reply that carries both [code] and [message], [show_subjects]
    and [show_records] print the two values and return: no line is read, no
    index is stored, nothing else is printed, and the outcome is the same
    whether or not the reply has a [count] or a list of results, neither of
    which is looked up. *)
Theorem error_reply_short_circuits :
  (forall s i r w t tok items code message,
      s !! "token" = Some tok ->
      assoc "code" items = Some code ->
      assoc "message" items = Some message ->
      Demo.show_subjects (State s i (VDict items :: r) w t) =
      Ok tt (State (<["all_subjects" := VDict items]> s) i r w
               (t ++ [Call Cortex.query_subjects (subjects_query tok);
                      Print [Val code]; Print [Val message]])))
  /\
  (forall s i r w t tok subject name items code message,
      s !! "token" = Some tok ->
      s !! "current_subject" = Some subject ->
      subscript subject (VStr "subjectName") = inr name ->
      assoc "code" items = Some code ->
      assoc "message" items = Some message ->
      Demo.show_records (State s i (VDict items :: r) w t) =
      Ok tt (State (<["all_records" := VDict items]> s) i r w
               (t ++ [Call Cortex.query_records (records_query tok name);
                      Print [Val code]; Print [Val message]]))).
Proof.
  split.
  - intros s i r w t tok items code message Htok Hcode Hmsg.
    unfold Demo.show_subjects. exec_all. rewrite Htok, Hcode, Hmsg.
    now rewrite <- !app_assoc.
  - intros s i r w t tok subject name items code message Htok Hsub Hname Hcode Hmsg.
    unfold Demo.show_records. exec. rewrite Htok, Hsub, Hname. exec_all.
    rewrite Hcode, Hmsg. now rewrite <- !app_assoc.
Qed.

(** The reply is [{"code": 5, "message": "no access"}]. *)
Lemma error_reply_short_circuits_witness :
  ({[ "token" := VStr "tok-1" ]} : gmap string value) !! "token" = Some (VStr "tok-1")
  /\ assoc "code" [("code", VInt 5); ("message", VStr "no access")] = Some (VInt 5)
  /\ assoc "message" [("code", VInt 5); ("message", VStr "no access")]
     = Some (VStr "no access")
  /\ Demo.show_subjects (State {[ "token" := VStr "tok-1" ]} ["0"] [error_reply] [] [])
     = Ok tt (State (<["all_subjects" := error_reply]> {[ "token" := VStr "tok-1" ]})
                ["0"] [] []
                [Call Cortex.query_subjects (subjects_query (VStr "tok-1"));
                 Print [Val (VInt 5)]; Print [Val (VStr "no access")]]).
Proof.
  assert (H1 : ({[ "token" := VStr "tok-1" ]} : gmap string value) !! "token"
               = Some (VStr "tok-1")) by reflexivity.
  assert (H2 : assoc "code" [("code", VInt 5); ("message", VStr "no access")]
               = Some (VInt 5)) by reflexivity.
  assert (H3 : assoc "message" [("code", VInt 5); ("message", VStr "no access")]
               = Some (VStr "no access")) by reflexivity.
  repeat (split; [assumption|]).
  exact (proj1 error_reply_short_circuits _ ["0"] [] [] [] _ _ _ _ H1 H2 H3).
Defined.

(** ** Authentication *)

(** On a mismatch [authorize_user] says so and returns: it sends nothing
    after the login query and leaves the token as it was. *)
Lemma authorize_user_mismatch s i r w t name login account username :
  subscript login (VInt 0) = inr account ->
  subscript account (VStr "username") = inr username ->
  eq_str name username = false ->
  Demo.authorize_user (State s (name :: i) (login :: r) w t) =
  Ok tt (State (<["current_username" := VStr name]> s) i r w
           (t ++ [Prompt [Lit "Enter your "; Sty MAGENTA; Lit "EMOTIV ID";
                          Sty RESET_ALL; Lit ": "];
                  Call Cortex.get_user_login [];
                  Print [Sty RED; Lit "Incorrect"; Sty RESET_ALL; Lit " ";
                         Sty MAGENTA; Lit "EMOTIV ID"; Sty RESET_ALL]])).
Proof.
  intros Hacc Huser Hne. unfold Demo.authorize_user. exec.
  rewrite Hacc. exec. rewrite Huser, Hne. exec. now rewrite <- !app_assoc.
Qed.

(** The comparison distinguishes upper and lower case. *)
Lemma eq_str_case_sensitive : eq_str "Alice" (VStr "alice") = false.
Proof. reflexivity. Qed.

(** C9. When the identifier matches and access is granted, [authorize_user]
    sends exactly one token call after the login and access calls: the
    regeneration when [self.token] holds a token (is truthy), the issue when
    it does not; either way the token of the reply replaces [self.token]. *)
Theorem token_issue_or_regenerate s i r w t name login account username last_login
    access granted reply new_token tok cid secret :
  s !! "token" = Some tok ->
  s !! "client_id" = Some cid ->
  s !! "client_secret" = Some secret ->
  subscript login (VInt 0) = inr account ->
  subscript account (VStr "username") = inr username ->
  eq_str name username = true ->
  subscript account (VStr "lastLoginTime") = inr last_login ->
  subscript access (VStr "accessGranted") = inr granted ->
  eq_False granted = false ->
  subscript reply (VStr "cortexToken") = inr new_token ->
  exists st',
    Demo.authorize_user (State s (name :: i) (login :: access :: reply :: r) w t)
      = Ok tt st'
    /\ self st' !! "token" = Some new_token
    /\ calls (trace st') =
       calls t ++ [(Cortex.get_user_login, []);
                   (Cortex.request_access,
                    [("client_id", cid); ("client_secret", secret)]);
                   (if truthy tok
                    then (Cortex.generate_new_token,
                          [("cortex_token", tok); ("client_id", cid);
                           ("client_secret", secret)])
                    else (Cortex.authorize,
                          [("client_id", cid); ("client_secret", secret)]))].
Proof.
  intros Htok Hcid Hsec Hacc Huser Heq Hlast Hgr Hg Hnew.
  unfold Demo.authorize_user. exec.
  rewrite Hacc. exec. rewrite Huser, Heq. exec. rewrite Hlast. exec. attrs.
  rewrite Hgr, Hg. exec. attrs.
  destruct (truthy tok); exec; attrs;
    rewrite Hnew; eexists; (split; [reflexivity|]); cbn [self trace];
    (split; [apply lookup_insert_eq | trace_calls; now rewrite <- !app_assoc]).
Qed.

(** An instance that already holds the token "tok-0". *)
Lemma token_issue_or_regenerate_witness :
  returning !! "token" = Some (VStr "tok-0")
  /\ returning !! "client_id" = Some (VStr "id")
  /\ returning !! "client_secret" = Some (VStr "secret")
  /\ subscript login_reply (VInt 0) = inr login_account
  /\ subscript login_account (VStr "username") = inr (VStr "alice")
  /\ eq_str "alice" (VStr "alice") = true
  /\ subscript login_account (VStr "lastLoginTime") = inr (VStr "2024-05-01T10:00:00")
  /\ subscript (access_reply true) (VStr "accessGranted") = inr (VBool true)
  /\ eq_False (VBool true) = false
  /\ subscript token_reply (VStr "cortexToken") = inr (VStr "tok-1")
  /\ exists st',
       Demo.authorize_user
         (State returning ["alice"] [login_reply; access_reply true; token_reply] [] [])
         = Ok tt st'
       /\ self st' !! "token" = Some (VStr "tok-1")
       /\ calls (trace st') =
          [(Cortex.get_user_login, []);
           (Cortex.request_access,
            [("client_id", VStr "id"); ("client_secret", VStr "secret")]);
           (Cortex.generate_new_token,
            [("cortex_token", VStr "tok-0"); ("client_id", VStr "id");
             ("client_secret", VStr "secret")])].
Proof.
  repeat (split; [reflexivity|]).
  exact (token_issue_or_regenerate returning [] [] [] [] "alice" login_reply
           login_account (VStr "alice") (VStr "2024-05-01T10:00:00")
           (access_reply true) (VBool true) token_reply (VStr "tok-1")
           (VStr "tok-0") (VStr "id") (VStr "secret")
           eq_refl eq_refl eq_refl eq_refl eq_refl eq_refl eq_refl eq_refl eq_refl
           eq_refl).
Defined.

(** ** The script from its first line to its last *)

(** C1. In the end-to-end run (identifier matches, access granted, token
    issued, subject 0 of two, -1 at the two records, one headset, warning
    102, session created, picks 0, 3, -1) the script reaches its end, and the
    list it submits to [subscribe] is ["mot", "dev", "eq"]: three entries,
    the tags of keys 0, 1, 2, not the tags of the picks 0 and 3. *)
Theorem end_to_end_subscribes_first_tags :
  status (main (session ["0"; "3"; "-1"])) = None
  /\ closed (trace (final (main (session ["0"; "3"; "-1"])))) = true
  /\ subscribed (trace (final (main (session ["0"; "3"; "-1"]))))
     = [VList [VStr "mot"; VStr "dev"; VStr "eq"]].
Proof. vm_compute. repeat split; reflexivity. Qed.




(** C3. When the subject query is answered by an error, [show_subjects]
    prints it and returns without storing an index; the script then reads
    [demo.subject_index], which raises [AttributeError]: the process faults
    and [close] is never called. *)
Theorem subjects_error_reply_faults :
  status (main session_subjects_error) = Some (Exn AttributeError)
  /\ self (final (main session_subjects_error)) !! "subject_index" = None
  /\ closed (trace (final (main session_subjects_error))) = false.
Proof. vm_compute. repeat split; reflexivity. Qed.

(** C4. The comparison is case-sensitive ("Alice" is not "alice"), but after
    the mismatch is reported the script goes on: it asks for the user
    information with no token, and faults with [KeyError] on the error it
    gets back. *)
Theorem mismatch_does_not_halt :
  calls (trace (final (main session_mismatch)))
  = [(Cortex.get_user_login, []);
     (Cortex.get_user_information, [("cortex_token", VNone)])]
  /\ status (main session_mismatch) = Some (Exn KeyError)
  /\ closed (trace (final (main session_mismatch))) = false.
Proof. vm_compute. repeat split; reflexivity. Qed.

(** C5. After a mismatch, and after a refusal of access, the token is still
    [None] when the subject and record queries are sent. *)
Theorem subjects_queried_without_token :
  calls (trace (final (main session_mismatch_answered)))
  = [(Cortex.get_user_login, []);
     (Cortex.get_user_information, [("cortex_token", VNone)]);
     (Cortex.query_subjects, subjects_query VNone);
     (Cortex.query_records, records_query VNone (VStr "Zed"))]
  /\
  calls (trace (final (main session_not_granted)))
  = [(Cortex.get_user_login, []);
     (Cortex.request_access, [("client_id", VStr ""); ("client_secret", VStr "")]);
     (Cortex.get_user_information, [("cortex_token", VNone)]);
     (Cortex.query_subjects, subjects_query VNone);
     (Cortex.query_records, records_query VNone (VStr "Zed"))].
Proof. vm_compute. split; reflexivity. Qed.

(** * The other methods and the script as a whole *)

Ltac exec_in H :=
  cbv beta iota delta
    [bind ret raise lift return_ method emit print input getattr setattr item
     await_response await_warning len not_in append store negb
     self stdin replies warnings trace] in H.

(** Run the first computation of a sequence with [tac]. *)
Ltac step tac := erewrite bind_Ok; [| solve [tac] ].

Lemma nth_error_lookup {A} (l : list A) i : nth_error l i = l !! i.
Proof. revert i. induction l as [|x l IH]; intros [|i]; cbn; auto. Qed.

Lemma index_lookup {A} (l : list A) (i : nat) :
  (i < length l)%nat -> index l (Z.of_nat i) = l !! i.
Proof.
  intros H. unfold index.
  replace ((0 <=? Z.of_nat i) && (Z.of_nat i <? Z.of_nat (length l))) with true
    by (symmetry; apply andb_true_intro; split; lia).
  now rewrite Nat2Z.id, nth_error_lookup.
Qed.

Lemma for_each_app {A} (l1 l2 : list A) body st :
  for_each (l1 ++ l2) body st = bind (for_each l1 body) (fun _ => for_each l2 body) st.
Proof.
  revert st. induction l1 as [|x l1 IH]; intros st; [reflexivity|].
  cbn [app for_each]. unfold bind. destruct (body x st) as [[] st'|]; [|reflexivity].
  rewrite IH. reflexivity.
Qed.

(** ** What a computation adds to the trace *)

Section Adds.

Variable p : event -> bool.

Lemma adds_nothing {A} (m : M A) :
  (forall st, trace (final (m st)) = trace st) -> adds p m.
Proof. intros H st. exists []. now rewrite H, app_nil_r. Qed.

Lemma adds_ret {A} (a : A) : adds p (ret a).
Proof. now apply adds_nothing. Qed.

Lemma adds_raise {A} e : adds p (@raise A e).
Proof. now apply adds_nothing. Qed.

Lemma adds_return {A} : adds p (@return_ A).
Proof. now apply adds_nothing. Qed.

Lemma adds_lift {A} (x : exn + A) : adds p (lift x).
Proof. destruct x; [apply adds_raise | apply adds_ret]. Qed.

Lemma adds_getattr name : adds p (getattr name).
Proof. apply adds_nothing. intros st. unfold getattr. now destruct (self st !! name). Qed.

Lemma adds_setattr name v : adds p (setattr name v).
Proof. now apply adds_nothing. Qed.

Lemma adds_emit e : p e = true -> adds p (emit e).
Proof. intros H st. exists [e]. cbn. now rewrite H. Qed.

Lemma adds_bind {A B} (m : M A) (f : A -> M B) :
  adds p m -> (forall a, adds p (f a)) -> adds p (bind m f).
Proof.
  intros Hm Hf st. unfold bind. destruct (Hm st) as (evs1 & H1 & P1).
  destruct (m st) as [a st'|why st']; cbn [final] in H1.
  - destruct (Hf a st') as (evs2 & H2 & P2). exists (evs1 ++ evs2).
    rewrite H2, H1, app_assoc, forallb_app, P1, P2. now split.
  - exists evs1. now split.
Qed.

Lemma adds_method body : adds p body -> adds p (method body).
Proof.
  intros H st. destruct (H st) as (evs & H1 & P1). exists evs.
  now rewrite method_final.
Qed.

Lemma adds_try_except {A} (body handler : M A) e :
  adds p body -> adds p handler -> adds p (try_except body e handler).
Proof.
  intros Hb Hh st. unfold try_except. destruct (Hb st) as (evs1 & H1 & P1).
  destruct (body st) as [a st'|[e'| | | |] st']; cbn [final] in H1;
    try (exists evs1; now split).
  destruct (decide (e' = e)); [|exists evs1; now split].
  destruct (Hh st') as (evs2 & H2 & P2). exists (evs1 ++ evs2).
  rewrite H2, H1, app_assoc, forallb_app, P1, P2. now split.
Qed.

Lemma adds_for_each {A} (l : list A) body :
  (forall x, adds p (body x)) -> adds p (for_each l body).
Proof.
  intros H. induction l as [|x l IH]; [apply adds_ret|].
  cbn [for_each]. apply adds_bind; [apply H | intros _; exact IH].
Qed.

Lemma adds_input text : p (Prompt text) = true -> adds p (input text).
Proof.
  intros H. unfold input. apply adds_bind; [now apply adds_emit|]. intros _.
  apply adds_nothing. intros st. now destruct (stdin st).
Qed.

Lemma adds_await_response api kw :
  p (Call api kw) = true -> adds p (await_response api kw).
Proof.
  intros H. unfold await_response. apply adds_bind; [now apply adds_emit|]. intros _.
  apply adds_nothing. intros st. now destruct (replies st).
Qed.

Lemma adds_await_warning : p AwaitWarning = true -> adds p await_warning.
Proof.
  intros H. unfold await_warning. apply adds_bind; [now apply adds_emit|]. intros _.
  apply adds_nothing. intros st. now destruct (warnings st).
Qed.

Lemma adds_int line : adds p (int line).
Proof.
  destruct (int_outcome line) as [(z & _ & ->)|[->| ->]];
    [apply adds_ret | apply adds_raise | now apply adds_nothing].
Qed.

Lemma adds_item v k : adds p (item v k).
Proof. apply adds_lift. Qed.

Lemma adds_len v : adds p (len v).
Proof. destruct v; first [apply adds_ret | apply adds_raise]. Qed.

Lemma adds_not_in z v : adds p (not_in z v).
Proof. destruct v; first [apply adds_ret | apply adds_raise]. Qed.

Lemma adds_append v x : adds p (append v x).
Proof. destruct v; first [apply adds_ret | apply adds_raise]. Qed.

Lemma adds_store v i x : adds p (store v i x).
Proof.
  destruct v; try apply adds_raise. cbn [store].
  destruct (i <? length l)%nat; [apply adds_ret | apply adds_raise].
Qed.

Lemma adds_stream_dic_at i : adds p (stream_dic_at i).
Proof.
  unfold stream_dic_at. destruct (stream_dic_get i); [apply adds_ret | apply adds_raise].
Qed.

Lemma adds_for_in v body : (forall x, adds p (body x)) -> adds p (for_in v body).
Proof.
  intros H. unfold for_in. apply adds_bind; [apply adds_lift|].
  intros l. now apply adds_for_each.
Qed.

Lemma adds_for_range n body : (forall i, adds p (body i)) -> adds p (for_range n body).
Proof. intros H. now apply adds_for_each. Qed.

End Adds.

Ltac adds_step :=
  first
    [ match goal with |- adds _ (method _) => apply adds_method end
    | apply adds_ret | apply adds_raise | apply adds_return
    | apply adds_getattr | apply adds_setattr
    | apply adds_item | apply adds_int
    | apply adds_len | apply adds_not_in | apply adds_append | apply adds_store
    | apply adds_stream_dic_at
    | apply adds_emit; reflexivity
    | apply adds_input; reflexivity
    | apply adds_await_response; reflexivity
    | apply adds_await_warning; reflexivity
    | apply adds_try_except
    | apply adds_for_in; intros ?
    | apply adds_for_range; intros ?
    | apply adds_for_each; intros ?
    | apply adds_lift
    | match goal with
      | |- adds _ (if ?b then _ else _) => destruct b
      | |- adds _ (bind _ _) => apply adds_bind; [|intros ?]
      end ].

Ltac adds_auto := unfold print; repeat adds_step.

Lemma adds_pick_streams fuel : forall idx, adds method_event (Demo.pick_streams fuel idx).
Proof.
  induction fuel as [|fuel IH]; intros idx; cbn [Demo.pick_streams];
    destruct ((idx >=? 0) && (idx <=? 6)); try apply adds_ret.
  - now apply adds_nothing.
  - unfold Demo.pick_prompt, Demo.added_text, Demo.already_text. adds_auto. apply IH.
Qed.

Lemma adds_collect_streams : adds method_event Demo.collect_streams.
Proof.
  unfold Demo.collect_streams. adds_auto. intros st. apply adds_pick_streams.
Qed.

Lemma adds_translate_streams : adds method_event Demo.translate_streams.
Proof. unfold Demo.translate_streams. adds_auto. Qed.

Lemma adds_select_streams : adds method_event Demo.select_streams.
Proof.
  unfold Demo.select_streams. adds_auto;
    first [apply adds_collect_streams | apply adds_translate_streams].
Qed.

Lemma adds_report_error result : adds method_event (Demo.report_error result).
Proof. unfold Demo.report_error. adds_auto. Qed.

Lemma adds_find_headset : adds method_event Demo.find_headset.
Proof. unfold Demo.find_headset. adds_auto; apply adds_report_error. Qed.

Lemma adds_authorize_user : adds method_event Demo.authorize_user.
Proof. unfold Demo.authorize_user. adds_auto. Qed.

Lemma adds_display_user_info : adds method_event Demo.display_user_info.
Proof. unfold Demo.display_user_info. adds_auto. Qed.

Lemma adds_show_subjects : adds method_event Demo.show_subjects.
Proof. unfold Demo.show_subjects. adds_auto; apply adds_report_error. Qed.

Lemma adds_create_subject : adds method_event Demo.create_subject.
Proof. unfold Demo.create_subject. adds_auto. Qed.

Lemma adds_select_subject : adds method_event Demo.select_subject.
Proof. unfold Demo.select_subject. adds_auto. Qed.

Lemma adds_display_subject_info : adds method_event Demo.display_subject_info.
Proof. unfold Demo.display_subject_info. adds_auto. Qed.

Lemma adds_show_records : adds method_event Demo.show_records.
Proof. unfold Demo.show_records. adds_auto; apply adds_report_error. Qed.

Lemma adds_display_record_info : adds method_event Demo.display_record_info.
Proof. unfold Demo.display_record_info. adds_auto. Qed.

Lemma adds_create_record : adds method_event Demo.create_record.
Proof.
  unfold Demo.create_record. adds_auto;
    first [apply adds_find_headset | apply adds_select_streams].
Qed.

Lemma adds_init a b c : adds method_event (Demo.init a b c).
Proof. unfold Demo.init. adds_auto. Qed.

Lemma closes_last_close : closes_last (emit Close).
Proof.
  intros st. exists [Close]. split; [reflexivity|]. left. split; [reflexivity|].
  now exists [].
Qed.

Lemma closes_last_bind {A B} (m : M A) (f : A -> M B) :
  adds method_event m -> (forall a, closes_last (f a)) -> closes_last (bind m f).
Proof.
  intros Hm Hf st. unfold bind. destruct (Hm st) as (evs1 & H1 & P1).
  destruct (m st) as [a st'|why st']; cbn [final] in H1.
  - destruct (Hf a st') as (evs2 & H2 & [(Hs & evs' & E & P2)|(Hs & P2)]);
      exists (evs1 ++ evs2); rewrite H2, H1, app_assoc; (split; [reflexivity|]).
    + left. split; [exact Hs|]. exists (evs1 ++ evs').
      now rewrite E, app_assoc, forallb_app, P1, P2.
    + right. split; [exact Hs|]. now rewrite forallb_app, P1, P2.
  - exists evs1. split; [exact H1|]. right. now split.
Qed.

Lemma main_closes_last : closes_last main.
Proof.
  unfold main.
  repeat (apply closes_last_bind;
          [ first [ apply adds_init | apply adds_authorize_user
                  | apply adds_display_user_info | apply adds_show_subjects
                  | apply adds_display_subject_info | apply adds_show_records
                  | apply adds_getattr
                  | match goal with
                    | |- adds _ (if ?b then _ else _) =>
                        destruct b;
                        first [ apply adds_create_subject | apply adds_select_subject
                              | apply adds_create_record
                              | apply adds_display_record_info ]
                    end ]
          | intros ? ]).
  apply closes_last_close.
Qed.

Lemma closed_app t1 t2 : closed (t1 ++ t2) = closed t1 || closed t2.
Proof. apply existsb_app. Qed.

Lemma method_events_not_closed evs :
  forallb method_event evs = true -> closed evs = false.
Proof.
  induction evs as [|e evs IH]; [reflexivity|]. cbn [forallb].
  intros [He Hevs]%andb_prop. unfold closed. cbn [existsb].
  fold (closed evs). rewrite (IH Hevs). now destruct e.
Qed.

Lemma method_events_calls evs :
  forallb method_event evs = true ->
  forallb (fun c => negb (withheld (fst c))) (calls evs) = true.
Proof.
  induction evs as [|e evs IH]; [reflexivity|]. cbn [forallb].
  intros [He Hevs]%andb_prop. specialize (IH Hevs).
  destruct e as [| |api kw| |]; try exact IH.
  change (calls (Call api kw :: evs)) with ((api, kw) :: calls evs).
  cbn [forallb fst]. rewrite IH. now destruct api.
Qed.

(** X20. The script calls [close] on the client exactly when it runs to
    its last line: a run stopped by an exception, or blocked on the client,
    never closes the connection, and a run that ends normally always does. *)
Theorem close_iff_normal_end lines answers notices :
  status (main (boot lines answers notices)) = None
  <-> closed (trace (final (main (boot lines answers notices)))) = true.
Proof.
  destruct (main_closes_last (boot lines answers notices))
    as (evs & -> & [(Hs & evs' & -> & P)|(Hs & P)]); cbn [trace boot app].
  - split; [intros _ | intros _; exact Hs].
    rewrite closed_app, (method_events_not_closed _ P). reflexivity.
  - rewrite (method_events_not_closed _ P). split; [intros; contradiction | discriminate].
Qed.

(** X21. Whatever is typed and whatever the client answers, no run of the
    script sends the [create_record] or the [update_session] request: the
    record form is filled in and nothing is created. *)
Theorem record_never_created lines answers notices :
  forallb (fun c => negb (withheld (fst c)))
          (calls (trace (final (main (boot lines answers notices))))) = true.
Proof.
  destruct (main_closes_last (boot lines answers notices))
    as (evs & -> & [(Hs & evs' & -> & P)|(Hs & P)]); cbn [trace boot app].
  - rewrite calls_app, forallb_app, (method_events_calls _ P). reflexivity.
  - now apply method_events_calls.
Qed.

(** ** Error replies, field by field *)

(** X1. The error check of [show_subjects], [show_records] and
    [find_headset] goes by field: a dict with [code] and [message] has both
    printed and ends the method; a dict with [code] alone has the code
    printed and is then used as a result all the same; a dict without [code]
    prints nothing; anything that is not a dict raises [TypeError], which
    the [except KeyError] does not catch. *)
Theorem report_error_cases result s i r w t :
  Demo.report_error result (State s i r w t) =
  match result with
  | VDict items =>
      match assoc "code" items, assoc "message" items with
      | Some code, Some message =>
          Stop Returned (State s i r w (t ++ [Print [Val code]; Print [Val message]]))
      | Some code, None => Ok tt (State s i r w (t ++ [Print [Val code]]))
      | None, _ => Ok tt (State s i r w t)
      end
  | _ => Stop (Exn TypeError) (State s i r w t)
  end.
Proof.
  unfold Demo.report_error.
  destruct result as [| | | | |items]; try reflexivity.
  exec_all. destruct (assoc "code" items) as [code|]; [|reflexivity].
  destruct (assoc "message" items) as [message|]; [|reflexivity].
  now rewrite <- app_assoc.
Qed.

(** ** [authorize_user], path by path *)

(** X2. On a mismatch of the identifier [authorize_user] returns normally
    after the login query alone: no access request, no token request, and
    [self.token] is what it was. *)
Theorem authorize_user_stops_on_mismatch s i r w t name login account username :
  subscript login (VInt 0) = inr account ->
  subscript account (VStr "username") = inr username ->
  eq_str name username = false ->
  exists st',
    Demo.authorize_user (State s (name :: i) (login :: r) w t) = Ok tt st'
    /\ self st' !! "token" = s !! "token"
    /\ replies st' = r
    /\ calls (trace st') = calls t ++ [(Cortex.get_user_login, [])].
Proof.
  intros Hacc Huser Hne.
  rewrite (authorize_user_mismatch s i r w t name login account username Hacc Huser Hne).
  eexists. split; [reflexivity|]. cbn [self replies trace].
  split; [now rewrite lookup_insert_ne by discriminate|]. split; [reflexivity|].
  now rewrite calls_app.
Qed.

Lemma authorize_user_stops_on_mismatch_witness :
  subscript login_reply (VInt 0) = inr login_account
  /\ subscript login_account (VStr "username") = inr (VStr "alice")
  /\ eq_str "ALICE" (VStr "alice") = false
  /\ exists st',
       Demo.authorize_user (State returning ["ALICE"] [login_reply; error_reply] [] [])
         = Ok tt st'
       /\ self st' !! "token" = returning !! "token"
       /\ replies st' = [error_reply]
       /\ calls (trace st') = calls [] ++ [(Cortex.get_user_login, [])].
Proof.
  repeat (split; [reflexivity|]).
  exact (authorize_user_stops_on_mismatch returning [] [error_reply] [] [] "ALICE"
           login_reply login_account (VStr "alice") eq_refl eq_refl eq_refl).
Defined.

(** X3. When access is not granted ([accessGranted == False], which the
    integer 0 satisfies too) [authorize_user] returns normally after the
    access request: no token request is sent and [self.token] is what it
    was. *)
Theorem authorize_user_not_granted s i r w t name login account username last_login
    access granted cid secret :
  s !! "client_id" = Some cid ->
  s !! "client_secret" = Some secret ->
  subscript login (VInt 0) = inr account ->
  subscript account (VStr "username") = inr username ->
  eq_str name username = true ->
  subscript account (VStr "lastLoginTime") = inr last_login ->
  subscript access (VStr "accessGranted") = inr granted ->
  eq_False granted = true ->
  exists st',
    Demo.authorize_user (State s (name :: i) (login :: access :: r) w t) = Ok tt st'
    /\ self st' !! "token" = s !! "token"
    /\ replies st' = r
    /\ calls (trace st') =
       calls t ++ [(Cortex.get_user_login, []);
                   (Cortex.request_access,
                    [("client_id", cid); ("client_secret", secret)])].
Proof.
  intros Hcid Hsec Hacc Huser Heq Hlast Hgr Hg.
  unfold Demo.authorize_user. exec.
  rewrite Hacc. exec. rewrite Huser, Heq. exec. rewrite Hlast. exec. attrs.
  rewrite Hgr, Hg. exec. eexists. split; [reflexivity|]. cbn [self replies trace].
  split; [now rewrite lookup_insert_ne by discriminate|]. split; [reflexivity|].
  trace_calls. now rewrite <- !app_assoc.
Qed.

Lemma authorize_user_not_granted_witness :
  returning !! "client_id" = Some (VStr "id")
  /\ returning !! "client_secret" = Some (VStr "secret")
  /\ subscript login_reply (VInt 0) = inr login_account
  /\ subscript login_account (VStr "username") = inr (VStr "alice")
  /\ eq_str "alice" (VStr "alice") = true
  /\ subscript login_account (VStr "lastLoginTime") = inr (VStr "2024-05-01T10:00:00")
  /\ subscript (VDict [("accessGranted", VInt 0)]) (VStr "accessGranted") = inr (VInt 0)
  /\ eq_False (VInt 0) = true
  /\ exists st',
       Demo.authorize_user
         (State returning ["alice"] [login_reply; VDict [("accessGranted", VInt 0)]] [] [])
         = Ok tt st'
       /\ self st' !! "token" = returning !! "token"
       /\ replies st' = []
       /\ calls (trace st') =
          calls [] ++ [(Cortex.get_user_login, []);
                       (Cortex.request_access,
                        [("client_id", VStr "id"); ("client_secret", VStr "secret")])].
Proof.
  repeat (split; [reflexivity|]).
  exact (authorize_user_not_granted returning [] [] [] [] "alice" login_reply
           login_account (VStr "alice") (VStr "2024-05-01T10:00:00")
           (VDict [("accessGranted", VInt 0)]) (VInt 0) (VStr "id") (VStr "secret")
           eq_refl eq_refl eq_refl eq_refl eq_refl eq_refl eq_refl eq_refl).
Defined.

(** X4. [authorize_user] has no error check on the login query: any dict
    in reply, an error reply included, makes [result[0]] raise [KeyError]
    before anything is compared, with the token untouched. *)
Theorem authorize_user_login_error s i r w t name items :
  exists st',
    Demo.authorize_user (State s (name :: i) (VDict items :: r) w t)
      = Stop (Exn KeyError) st'
    /\ calls (trace st') = calls t ++ [(Cortex.get_user_login, [])]
    /\ self st' !! "token" = s !! "token".
Proof.
  unfold Demo.authorize_user. exec_all. eexists. split; [reflexivity|].
  cbn [self trace]. split; [now trace_calls|].
  now rewrite lookup_insert_ne by discriminate.
Qed.

(** X5. [display_user_info] has no error check either: it sends whatever
    [self.token] holds, stores the reply in [self.user_info], prints its
    heading, and raises [KeyError] on a dict without [username]. *)
Theorem display_user_info_error_reply s i r w t tok items :
  s !! "token" = Some tok ->
  assoc "username" items = None ->
  Demo.display_user_info (State s i (VDict items :: r) w t) =
  Stop (Exn KeyError)
    (State (<["user_info" := VDict items]> s) i r w
       (t ++ [Call Cortex.get_user_information [("cortex_token", tok)];
              Print [Sty GREEN; Lit "user information"; Sty RESET_ALL; Lit " ---"]])).
Proof.
  intros Htok Huser. unfold Demo.display_user_info. exec_all. rewrite Htok, Huser.
  now rewrite <- app_assoc.
Qed.

Lemma display_user_info_error_reply_witness :
  ({[ "token" := VNone ]} : gmap string value) !! "token" = Some VNone
  /\ assoc "username" [("code", VInt 5); ("message", VStr "no access")] = None
  /\ Demo.display_user_info (State {[ "token" := VNone ]} [] [error_reply] [] []) =
     Stop (Exn KeyError)
       (State (<["user_info" := error_reply]> {[ "token" := VNone ]}) [] [] []
          [Call Cortex.get_user_information [("cortex_token", VNone)];
           Print [Sty GREEN; Lit "user information"; Sty RESET_ALL; Lit " ---"]]).
Proof.
  repeat (split; [reflexivity|]).
  exact (display_user_info_error_reply {[ "token" := VNone ]} [] [] [] [] VNone
           [("code", VInt 5); ("message", VStr "no access")] eq_refl eq_refl).
Defined.

(** ** Subjects and records *)

Lemma entries_listed list_key field result (all : list value) :
  subscript result (VStr list_key) = inr (VList all) ->
  forall part names k,
    Forall2 (fun x name => subscript x (VStr field) = inr name) part names ->
    drop k all = part ->
    forall s i r w t,
      for_each (map Z.of_nat (seq k (length part)))
        (fun i =>
           entries <- item result (VStr list_key) ;;
           entry <- item entries (VInt i) ;;
           name <- item entry (VStr field) ;;
           print [Sty MAGENTA; Val (VInt i); Sty RESET_ALL; Lit ": "; Val name])
        (State s i r w t)
      = Ok tt (State s i r w (t ++ entry_lines k names)).
Proof.
  intros Hall part names k H. revert k.
  induction H as [|x name part names Hx _ IH]; intros k Hdrop s i r w t.
  - cbn. now rewrite app_nil_r.
  - assert (Hk : all !! k = Some x).
    { rewrite <- (Nat.add_0_r k), <- lookup_drop, Hdrop. reflexivity. }
    assert (Hnext : drop (S k) all = part).
    { replace (S k) with (k + 1)%nat by lia. now rewrite <- drop_drop, Hdrop. }
    cbn [length seq map for_each entry_lines]. erewrite bind_Ok; cycle 1.
    { exec. rewrite Hall. cbn [subscript].
      rewrite index_lookup by (now apply lookup_lt_Some in Hk). rewrite Hk, Hx.
      reflexivity. }
    rewrite (IH (S k) Hnext). now rewrite <- app_assoc.
Qed.

Section Listing.

Variables (s : gmap string value) (i : list string) (r w : list value) (t : list event).
Variables (tok : value) (items : list (string * value)) (all names : list value).
Variables (line : string) (z : Z).
Hypothesis Htok : s !! "token" = Some tok.
Hypothesis Hcode : assoc "code" items = None.
Hypothesis Hcount : assoc "count" items = Some (VInt (Z.of_nat (length all))).
Hypothesis Hline : reads line z.

(** X6. On a result reply whose [count] is the number of subjects,
    [show_subjects] prints the count, then one line per subject in the order
    of the reply, each under its position, prompts once, and stores the
    integer typed as [self.subject_index] without checking it against the
    count; [self.current_subject] is reset to [None]. *)
Theorem show_subjects_lists :
  assoc "subjects" items = Some (VList all) ->
  Forall2 (fun x name => subscript x (VStr "subjectName") = inr name) all names ->
  Demo.show_subjects (State s (line :: i) (VDict items :: r) w t) =
  Ok tt
    (State (<["current_subject" := VNone]>
              (<["subject_index" := VInt z]> (<["all_subjects" := VDict items]> s)))
       i r w
       (t ++ Call Cortex.query_subjects (subjects_query tok)
          :: Print [Val (VInt (Z.of_nat (length all))); Lit " "; Sty YELLOW;
                    Lit "subject(s)"; Sty RESET_ALL; Lit " found:"]
          :: entry_lines 0 names
          ++ [Prompt [Sty GREEN; Lit "Select"; Sty RESET_ALL; Lit " a "; Sty YELLOW;
                      Lit "subject"; Sty RESET_ALL; Lit " by its "; Sty MAGENTA;
                      Lit "index"; Sty RESET_ALL; Lit ". ("; Sty MAGENTA; Lit "-1";
                      Sty RESET_ALL; Lit " to create a "; Sty GREEN; Lit "new";
                      Sty RESET_ALL; Lit " "; Sty YELLOW; Lit "subject"; Sty RESET_ALL;
                      Lit "): "]])).
Proof.
  intros Hall Hnames.
  pose proof (entries_listed "subjects" "subjectName" (VDict items) all
                ltac:(cbn; now rewrite Hall) all names 0%nat Hnames eq_refl) as HL.
  unfold Demo.show_subjects, method, for_range.
  step ltac:(exec; rewrite Htok; reflexivity).
  step ltac:(exec; reflexivity).
  step ltac:(reflexivity).
  step ltac:(exec_all; rewrite Hcode; reflexivity).
  step ltac:(exec_all; rewrite Hcount; reflexivity).
  step ltac:(reflexivity).
  step ltac:(exec_all; rewrite Hcount; reflexivity).
  step ltac:(reflexivity).
  rewrite Nat2Z.id. step ltac:(apply HL).
  exec. rewrite (int_reads _ _ Hline). exec. now rewrite <- !app_assoc.
Qed.

Variables (subject keyword : value).
Hypothesis Hsubject : s !! "current_subject" = Some subject.
Hypothesis Hkeyword : subscript subject (VStr "subjectName") = inr keyword.

(** X10. [show_records] queries the records by the name of the current
    subject and, on a result reply whose [count] is the number of records,
    prints the count with that name, then one line per record in the order
    of the reply, prompts once, and stores the integer typed as
    [self.record_index] unchecked; [self.current_record] is reset. *)
Theorem show_records_lists :
  assoc "records" items = Some (VList all) ->
  Forall2 (fun x name => subscript x (VStr "title") = inr name) all names ->
  Demo.show_records (State s (line :: i) (VDict items :: r) w t) =
  Ok tt
    (State (<["current_record" := VNone]>
              (<["record_index" := VInt z]> (<["all_records" := VDict items]> s)))
       i r w
       (t ++ Call Cortex.query_records (records_query tok keyword)
          :: Print [Val (VInt (Z.of_nat (length all))); Lit " "; Sty YELLOW;
                    Lit "record(s)"; Sty RESET_ALL; Lit " found for "; Sty MAGENTA;
                    Val keyword; Sty RESET_ALL; Lit ":"]
          :: entry_lines 0 names
          ++ [Prompt [Sty GREEN; Lit "Select"; Sty RESET_ALL; Lit " a "; Sty YELLOW;
                      Lit "record"; Sty RESET_ALL; Lit " by its "; Sty MAGENTA;
                      Lit "index"; Sty RESET_ALL; Lit ". ("; Sty MAGENTA; Lit "-1";
                      Sty RESET_ALL; Lit " to create a "; Sty GREEN; Lit "new";
                      Sty RESET_ALL; Lit " "; Sty YELLOW; Lit "record"; Sty RESET_ALL;
                      Lit "): "]])).
Proof.
  intros Hall Hnames.
  pose proof (entries_listed "records" "title" (VDict items) all
                ltac:(cbn; now rewrite Hall) all names 0%nat Hnames eq_refl) as HL.
  unfold Demo.show_records, method, for_range.
  step ltac:(exec; rewrite Htok; reflexivity).
  step ltac:(exec; rewrite Hsubject; reflexivity).
  step ltac:(exec; rewrite Hkeyword; reflexivity).
  step ltac:(exec; reflexivity).
  step ltac:(reflexivity).
  step ltac:(exec_all; rewrite Hcode; reflexivity).
  step ltac:(exec_all; rewrite Hcount; reflexivity).
  step ltac:(exec; rewrite lookup_insert_ne, Hsubject by discriminate; reflexivity).
  step ltac:(exec; rewrite Hkeyword; reflexivity).
  step ltac:(reflexivity).
  step ltac:(exec_all; rewrite Hcount; reflexivity).
  step ltac:(reflexivity).
  rewrite Nat2Z.id. step ltac:(apply HL).
  exec. rewrite (int_reads _ _ Hline). exec. now rewrite <- !app_assoc.
Qed.

End Listing.

(** Two subjects are listed and the operator types 7. *)
Lemma show_subjects_lists_witness :
  ({[ "token" := VStr "tok-1" ]} : gmap string value) !! "token" = Some (VStr "tok-1")
  /\ assoc "code" [("count", VInt 2);
                   ("subjects", VList [VDict [("subjectName", VStr "Zed")];
                                       VDict [("subjectName", VStr "Ann")]])] = None
  /\ reads "7" 7
  /\ Forall2 (fun x name => subscript x (VStr "subjectName") = inr name)
       [VDict [("subjectName", VStr "Zed")]; VDict [("subjectName", VStr "Ann")]]
       [VStr "Zed"; VStr "Ann"]
  /\ self (final (Demo.show_subjects
                    (State {[ "token" := VStr "tok-1" ]} ["7"] [subjects_reply] [] [])))
       !! "subject_index" = Some (VInt 7).
Proof.
  repeat (split; [reflexivity|]).
  assert (H : Forall2 (fun x name => subscript x (VStr "subjectName") = inr name)
                [VDict [("subjectName", VStr "Zed")]; VDict [("subjectName", VStr "Ann")]]
                [VStr "Zed"; VStr "Ann"]) by (repeat constructor).
  split; [exact H|].
  assert (Htok : ({[ "token" := VStr "tok-1" ]} : gmap string value) !! "token"
                 = Some (VStr "tok-1")) by reflexivity.
  unfold subjects_reply.
  rewrite (show_subjects_lists {[ "token" := VStr "tok-1" ]} [] [] [] [] (VStr "tok-1")
             [("count", VInt 2);
              ("subjects", VList [VDict [("subjectName", VStr "Zed")];
                                  VDict [("subjectName", VStr "Ann")]])]
             [VDict [("subjectName", VStr "Zed")]; VDict [("subjectName", VStr "Ann")]]
             [VStr "Zed"; VStr "Ann"] "7" 7 Htok eq_refl eq_refl eq_refl eq_refl H).
  reflexivity.
Defined.

(** Two records are listed for the subject "Zed" and the operator types 1. *)
Lemma show_records_lists_witness :
  browsing !! "token" = Some (VStr "tok-1")
  /\ assoc "code" [("count", VInt 2);
                   ("records",
                    VList [VDict [("title", VStr "second"); ("uuid", VStr "u-2")];
                           VDict [("title", VStr "first"); ("uuid", VStr "u-1")]])]
     = None
  /\ reads "1" 1
  /\ browsing !! "current_subject"
     = Some (VDict [("subjectName", VStr "Zed"); ("sex", VStr "M")])
  /\ Forall2 (fun x name => subscript x (VStr "title") = inr name)
       [VDict [("title", VStr "second"); ("uuid", VStr "u-2")];
        VDict [("title", VStr "first"); ("uuid", VStr "u-1")]]
       [VStr "second"; VStr "first"]
  /\ calls (trace (final (Demo.show_records
                            (State browsing ["1"] [records_reply] [] []))))
     = [(Cortex.query_records, records_query (VStr "tok-1") (VStr "Zed"))].
Proof.
  repeat (split; [reflexivity|]).
  assert (H : Forall2 (fun x name => subscript x (VStr "title") = inr name)
                [VDict [("title", VStr "second"); ("uuid", VStr "u-2")];
                 VDict [("title", VStr "first"); ("uuid", VStr "u-1")]]
                [VStr "second"; VStr "first"]) by (repeat constructor).
  split; [exact H|].
  assert (Htok : browsing !! "token" = Some (VStr "tok-1")) by reflexivity.
  assert (Hsub : browsing !! "current_subject"
                 = Some (VDict [("subjectName", VStr "Zed"); ("sex", VStr "M")]))
    by reflexivity.
  unfold records_reply.
  rewrite (show_records_lists browsing [] [] [] [] (VStr "tok-1")
             [("count", VInt 2);
              ("records",
               VList [VDict [("title", VStr "second"); ("uuid", VStr "u-2")];
                      VDict [("title", VStr "first"); ("uuid", VStr "u-1")]])]
             [VDict [("title", VStr "second"); ("uuid", VStr "u-2")];
              VDict [("title", VStr "first"); ("uuid", VStr "u-1")]]
             [VStr "second"; VStr "first"] "1" 1
             Htok eq_refl eq_refl eq_refl
             (VDict [("subjectName", VStr "Zed"); ("sex", VStr "M")]) (VStr "Zed")
             Hsub eq_refl eq_refl H).
  reflexivity.
Defined.

(** X7. [select_subject] takes the stored index as Python does: from 0
    up to the length it selects that entry, from -1 down to minus the length
    it counts from the end of the list, and outside that it raises
    [IndexError] and leaves everything as it was; it never sends a request
    and never reads a line. *)
Theorem select_subject_index s i r w t all (l : list value) z :
  s !! "all_subjects" = Some all ->
  subscript all (VStr "subjects") = inr (VList l) ->
  s !! "subject_index" = Some (VInt z) ->
  (0 <= z < Z.of_nat (length l) ->
   exists x, l !! Z.to_nat z = Some x /\
     Demo.select_subject (State s i r w t)
     = Ok tt (State (<["current_subject" := x]> s) i r w t))
  /\ (- Z.of_nat (length l) <= z < 0 ->
      exists x, l !! Z.to_nat (Z.of_nat (length l) + z) = Some x /\
        Demo.select_subject (State s i r w t)
        = Ok tt (State (<["current_subject" := x]> s) i r w t))
  /\ (z < - Z.of_nat (length l) \/ Z.of_nat (length l) <= z ->
      Demo.select_subject (State s i r w t) = Stop (Exn IndexError) (State s i r w t)).
Proof.
  intros Hall Hsub Hidx.
  assert (Hrun : Demo.select_subject (State s i r w t) =
                 match index l z with
                 | Some x => Ok tt (State (<["current_subject" := x]> s) i r w t)
                 | None => Stop (Exn IndexError) (State s i r w t)
                 end).
  { unfold Demo.select_subject. exec. rewrite Hall. exec. rewrite Hsub, Hidx.
    cbn [subscript]. now destruct (index l z). }
  rewrite Hrun. unfold index. set (n := Z.of_nat (length l)). repeat split.
  - intros Hz. destruct (lookup_lt_is_Some_2 l (Z.to_nat z)) as [x Hx]; [lia|].
    exists x. split; [exact Hx|].
    replace ((0 <=? z) && (z <? n)) with true
      by (symmetry; apply andb_true_intro; split; lia).
    now rewrite nth_error_lookup, Hx.
  - intros Hz. destruct (lookup_lt_is_Some_2 l (Z.to_nat (n + z))) as [x Hx]; [lia|].
    exists x. split; [exact Hx|].
    replace ((0 <=? z) && (z <? n)) with false
      by (symmetry; apply andb_false_iff; left; lia).
    replace ((- n <=? z) && (z <? 0)) with true
      by (symmetry; apply andb_true_intro; split; lia).
    now rewrite nth_error_lookup, Hx.
  - intros Hz.
    replace ((0 <=? z) && (z <? n)) with false
      by (symmetry; apply andb_false_iff; destruct Hz; [left|right]; lia).
    replace ((- n <=? z) && (z <? 0)) with false
      by (symmetry; apply andb_false_iff; destruct Hz; [left|right]; lia).
    reflexivity.
Qed.

(** The stored index is -2 and two subjects are listed: the first one is
    selected. *)
Lemma select_subject_index_witness :
  browsing !! "all_subjects" = Some subjects_reply
  /\ subscript subjects_reply (VStr "subjects")
     = inr (VList [VDict [("subjectName", VStr "Zed")];
                   VDict [("subjectName", VStr "Ann")]])
  /\ browsing !! "subject_index" = Some (VInt (-2))
  /\ - 2 <= -2 < 0
  /\ exists x,
       [VDict [("subjectName", VStr "Zed")]; VDict [("subjectName", VStr "Ann")]]
         !! 0%nat = Some x
       /\ Demo.select_subject (State browsing [] [] [] [])
          = Ok tt (State (<["current_subject" := x]> browsing) [] [] [] []).
Proof.
  repeat (split; [reflexivity|]).
  assert (H : - 2 <= -2 < 0) by lia.
  split; [exact H|].
  assert (Hall : browsing !! "all_subjects" = Some subjects_reply) by reflexivity.
  assert (Hidx : browsing !! "subject_index" = Some (VInt (-2))) by reflexivity.
  exact (proj1 (proj2 (select_subject_index browsing [] [] [] [] subjects_reply
                         [VDict [("subjectName", VStr "Zed")];
                          VDict [("subjectName", VStr "Ann")]] (-2)
                         Hall eq_refl Hidx)) H).
Defined.

Lemma add_if_given_given params key text fields :
  Demo.add_if_given params key text ++ given fields
  = params ++ given ((key, text) :: fields).
Proof.
  unfold Demo.add_if_given. cbn [truthy given].
  destruct (String.eqb text ""); cbn [negb]; [reflexivity | now rewrite <- app_assoc].
Qed.

(** X8. [create_subject] sends one [create_subject] request with the token
    first and then exactly the fields that were not left blank, in the order
    of the form; a blank name, though marked required, is not refused but
    left out. The name typed is kept as [self.subject_name] and the reply
    becomes the current subject. *)
Theorem create_subject_sends_given_fields s name dob sex cc st city i reply r w t tok :
  s !! "token" = Some tok ->
  exists t',
    Demo.create_subject
      (State s (name :: dob :: sex :: cc :: st :: city :: i) (reply :: r) w t)
    = Ok tt (State (<["current_subject" := reply]> (<["subject_name" := VStr name]> s))
               i r w t')
    /\ calls t' =
       calls t ++
       [(Cortex.create_subject,
         ("cortex_token", tok) ::
         given [("subject_name", name); ("dateOfBirth", dob); ("sex", sex);
                ("countryCode", cc); ("state", st); ("city", city)])].
Proof.
  intros Htok. unfold Demo.create_subject. exec. rewrite Htok. exec.
  eexists. split; [reflexivity|]. trace_calls. do 2 f_equal.
  rewrite <- (app_nil_r (Demo.add_if_given _ "city" city)).
  change (@nil (string * value)) with (given []).
  now rewrite !add_if_given_given.
Qed.

(** The name and the country are left blank. *)
Lemma create_subject_sends_given_fields_witness :
  returning !! "token" = Some (VStr "tok-0")
  /\ exists t',
       Demo.create_subject
         (State returning [""; "1990-01-31"; "F"; ""; "Uusimaa"; "Espoo"]
            [VDict [("subjectName", VStr "")]] [] [])
       = Ok tt (State (<["current_subject" := VDict [("subjectName", VStr "")]]>
                         (<["subject_name" := VStr ""]> returning)) [] [] [] t')
       /\ calls t' =
          [(Cortex.create_subject,
            [("cortex_token", VStr "tok-0"); ("dateOfBirth", VStr "1990-01-31");
             ("sex", VStr "F"); ("state", VStr "Uusimaa"); ("city", VStr "Espoo")])].
Proof.
  assert (Htok : returning !! "token" = Some (VStr "tok-0")) by reflexivity.
  split; [exact Htok|].
  exact (create_subject_sends_given_fields returning "" "1990-01-31" "F" "" "Uusimaa"
           "Espoo" [] (VDict [("subjectName", VStr "")]) [] [] [] (VStr "tok-0") Htok).
Defined.

Lemma assoc_first key v (d : list (string * value)) :
  (key, v) ∈ d -> NoDup (map fst d) -> assoc key d = Some v.
Proof.
  induction d as [|[k x] d IH]; intros Hin Hnd; [inversion Hin|].
  cbn [assoc]. apply NoDup_cons in Hnd. destruct Hnd as [Hk Hnd].
  apply elem_of_cons in Hin. destruct Hin as [[= -> ->]|Hin].
  - now rewrite String.eqb_refl.
  - destruct (String.eqb_spec key k) as [->|_]; [|now apply IH].
    exfalso. apply Hk. cbn. apply list_elem_of_fmap. now exists (k, v).
Qed.

Lemma fields_shown attr (d : list (string * value)) :
  NoDup (map fst d) ->
  forall part, part ⊆ d ->
  forall s i r w t,
    s !! attr = Some (VDict d) ->
    for_each (map (fun kv => VStr (fst kv)) part)
      (fun key =>
         current <- getattr attr ;;
         v <- item current key ;;
         print [Sty CYAN; Val key; Sty RESET_ALL; Lit ": "; Val v])
      (State s i r w t)
    = Ok tt (State s i r w (t ++ map field_line part)).
Proof.
  intros Hnd part. induction part as [|[k v] part IH]; intros Hsub s i r w t Hs.
  - cbn. now rewrite app_nil_r.
  - cbn [map for_each fst]. erewrite bind_Ok; cycle 1.
    { exec. rewrite Hs. cbn [subscript].
      rewrite (assoc_first k v d) by (try assumption; apply Hsub; left).
      reflexivity. }
    rewrite IH; [|intros x Hx; apply Hsub; now right|assumption].
    now rewrite <- app_assoc.
Qed.

(** X9. [display_subject_info] on a subject that is a dict prints its
    heading and then every field, one line each, in the order of the dict;
    it changes nothing, reads nothing and sends nothing. *)
Theorem display_subject_info_fields s i r w t (d : list (string * value)) :
  s !! "current_subject" = Some (VDict d) ->
  NoDup (map fst d) ->
  Demo.display_subject_info (State s i r w t) =
  Ok tt (State s i r w
           (t ++ Print [Sty YELLOW; Lit "subject"; Sty RESET_ALL; Lit " information ---"]
              :: map field_line d)).
Proof.
  intros Hs Hnd. pose proof (fields_shown "current_subject" d Hnd d) as HL.
  unfold Demo.display_subject_info, method, for_in.
  step ltac:(reflexivity).
  step ltac:(exec; rewrite Hs; reflexivity).
  step ltac:(reflexivity).
  rewrite HL by (try assumption; reflexivity). now rewrite <- app_assoc.
Qed.

Lemma display_subject_info_fields_witness :
  browsing !! "current_subject"
  = Some (VDict [("subjectName", VStr "Zed"); ("sex", VStr "M")])
  /\ NoDup (map fst [("subjectName", VStr "Zed"); ("sex", VStr "M")])
  /\ Demo.display_subject_info (State browsing [] [] [] []) =
     Ok tt (State browsing [] [] []
              [Print [Sty YELLOW; Lit "subject"; Sty RESET_ALL; Lit " information ---"];
               field_line ("subjectName", VStr "Zed"); field_line ("sex", VStr "M")]).
Proof.
  assert (H1 : browsing !! "current_subject"
               = Some (VDict [("subjectName", VStr "Zed"); ("sex", VStr "M")]))
    by reflexivity.
  assert (H2 : NoDup (map fst [("subjectName", VStr "Zed"); ("sex", VStr "M")])).
  { cbn. apply NoDup_cons. split; [|apply NoDup_singleton].
    intros H. apply list_elem_of_singleton in H. discriminate H. }
  repeat (split; [assumption|]).
  exact (display_subject_info_fields browsing [] [] [] [] _ H1 H2).
Defined.

(** X11. [display_record_info] asks for the one record at the stored
    index, by its [uuid], makes the first entry of the reply the current
    record, and prints every field of it in the order of the dict. *)
Theorem display_record_info_shows s i r w t tok all (l : list value) z record uuid
    reply (d : list (string * value)) :
  s !! "token" = Some tok ->
  s !! "all_records" = Some all ->
  subscript all (VStr "records") = inr (VList l) ->
  s !! "record_index" = Some (VInt z) ->
  index l z = Some record ->
  subscript record (VStr "uuid") = inr uuid ->
  subscript reply (VInt 0) = inr (VDict d) ->
  NoDup (map fst d) ->
  Demo.display_record_info (State s i (reply :: r) w t) =
  Ok tt
    (State (<["current_record" := VDict d]> (<["record_ids" := VList [uuid]]> s)) i r w
       (t ++ Call Cortex.get_record_infos
               [("cortex_token", tok); ("record_ids", VList [uuid])]
          :: Print [Sty YELLOW; Lit "record"; Sty RESET_ALL; Lit " information ---"]
          :: map field_line d)).
Proof.
  intros Htok Hall Hrecs Hidx Hrec Huuid Hreply Hnd.
  pose proof (fields_shown "current_record" d Hnd d ltac:(reflexivity)
                (<["current_record" := VDict d]> (<["record_ids" := VList [uuid]]> s))
                i r w) as HL.
  unfold Demo.display_record_info, method, for_in.
  step ltac:(exec; rewrite Hall; reflexivity).
  step ltac:(exec; rewrite Hrecs; reflexivity).
  step ltac:(exec; rewrite Hidx; reflexivity).
  step ltac:(exec; cbn [subscript]; rewrite Hrec; reflexivity).
  step ltac:(exec; rewrite Huuid; reflexivity).
  step ltac:(reflexivity).
  step ltac:(exec; rewrite lookup_insert_ne, Htok by discriminate; reflexivity).
  step ltac:(exec; rewrite lookup_insert_eq; reflexivity).
  step ltac:(exec; reflexivity).
  step ltac:(exec; rewrite Hreply; reflexivity).
  step ltac:(reflexivity).
  step ltac:(reflexivity).
  step ltac:(exec; rewrite lookup_insert_eq; reflexivity).
  step ltac:(reflexivity).
  rewrite HL by apply lookup_insert_eq. now rewrite <- !app_assoc.
Qed.

(** The stored record index is 1. *)
Lemma display_record_info_shows_witness :
  browsing !! "token" = Some (VStr "tok-1")
  /\ browsing !! "all_records" = Some records_reply
  /\ browsing !! "record_index" = Some (VInt 1)
  /\ NoDup (map fst [("uuid", VStr "u-1"); ("title", VStr "first")])
  /\ calls (trace (final (Demo.display_record_info
                            (State browsing [] [record_info_reply] [] []))))
     = [(Cortex.get_record_infos,
         [("cortex_token", VStr "tok-1"); ("record_ids", VList [VStr "u-1"])])].
Proof.
  assert (H1 : browsing !! "token" = Some (VStr "tok-1")) by reflexivity.
  assert (H2 : browsing !! "all_records" = Some records_reply) by reflexivity.
  assert (H3 : browsing !! "record_index" = Some (VInt 1)) by reflexivity.
  assert (H4 : NoDup (map fst [("uuid", VStr "u-1"); ("title", VStr "first")])).
  { cbn. apply NoDup_cons. split; [|apply NoDup_singleton].
    intros H. apply list_elem_of_singleton in H. discriminate H. }
  repeat (split; [assumption|]).
  rewrite (display_record_info_shows browsing [] [] [] [] (VStr "tok-1") records_reply
             [VDict [("title", VStr "second"); ("uuid", VStr "u-2")];
              VDict [("title", VStr "first"); ("uuid", VStr "u-1")]]
             1 (VDict [("title", VStr "first"); ("uuid", VStr "u-1")]) (VStr "u-1")
             record_info_reply [("uuid", VStr "u-1"); ("title", VStr "first")]
             H1 H2 eq_refl H3 eq_refl eq_refl eq_refl H4).
  reflexivity.
Defined.

(** ** [find_headset] *)

(** X12. When the list of headsets comes back empty, [find_headset] has
    already printed "headset(s) found!" when [result[0]] raises
    [IndexError]; no connect request was sent. *)
Theorem find_headset_none s i r w t scan notice :
  Demo.find_headset (State s i (scan :: VList [] :: r) (notice :: w) t) =
  Stop (Exn IndexError)
    (State s i r w
       (t ++ [Call Cortex.control_device [("command", VStr "refresh")];
              Print [Sty MAGENTA; Val scan; Sty RESET_ALL];
              AwaitWarning;
              Print [Val notice];
              Call Cortex.query_headsets [];
              Print [Sty GREEN; Lit "headset(s) found!"; Sty RESET_ALL]])).
Proof.
  unfold Demo.find_headset, for_in. exec_all. cbn. now rewrite <- !app_assoc.
Qed.

Lemma headsets_listed hs ids :
  Forall2 (fun h id => subscript h (VStr "id") = inr id) hs ids ->
  forall s i r w t,
    for_each hs (fun hs => id <- item hs (VStr "id") ;; print [Lit "- "; Val id])
      (State s i r w t)
    = Ok tt (State s i r w (t ++ map headset_line ids)).
Proof.
  induction 1 as [|h id hs ids Hid _ IH]; intros s i r w t.
  - cbn. now rewrite app_nil_r.
  - cbn [for_each map]. erewrite bind_Ok; cycle 1.
    { exec. rewrite Hid. reflexivity. }
    rewrite IH, <- app_assoc. reflexivity.
Qed.

Lemma calls_headset_lines ids : calls (map headset_line ids) = [].
Proof. induction ids as [|id ids IH]; [reflexivity | exact IH]. Qed.

Section Headsets.

Variables (s : gmap string value) (i : list string) (r w : list value) (t : list event).
Variables (scan link scanned linked tok h id : value) (hs ids : list value).
Variable items : list (string * value).
Hypothesis Htok : s !! "token" = Some tok.
Hypothesis Hids :
  Forall2 (fun h id => subscript h (VStr "id") = inr id) (h :: hs) (id :: ids).

(** Up to the reply to [create_session]. *)
Lemma find_headset_prefix :
  exists evs,
    Demo.find_headset
      (State s i (scan :: VList (h :: hs) :: link :: VDict items :: r)
         (scanned :: linked :: w) t) =
    method (Demo.report_error (VDict items) ;;;
            session_id <- item (VDict items) (VStr "id") ;;
            setattr "session_id" session_id)
      (State (<["headset_id" := id]> (<["headset" := h]> s)) i r w (t ++ evs))
    /\ calls evs = connect_calls tok id.
Proof.
  pose proof (headsets_listed _ _ Hids) as HL. exec_in HL.
  assert (Hid : subscript h (VStr "id") = inr id) by now inversion Hids.
  unfold Demo.find_headset, for_in. exec. cbn [elements_of]. exec.
  rewrite HL. cbn [subscript]. change (index (h :: hs) 0) with (Some h). exec.
  rewrite lookup_insert_eq. exec. rewrite Hid. exec. attrs.
  eexists. split.
  - rewrite <- !app_assoc. reflexivity.
  - rewrite !calls_app, calls_headset_lines. reflexivity.
Qed.

(** X13. [find_headset] takes the first headset of the list, whatever
    the others are: it is the one kept as [self.headset], the one the connect
    request names and the one the session is created for; on a reply without
    [code] the [id] of the reply becomes [self.session_id]. *)
Theorem find_headset_opens_session sid :
  assoc "code" items = None ->
  assoc "id" items = Some sid ->
  exists st',
    Demo.find_headset
      (State s i (scan :: VList (h :: hs) :: link :: VDict items :: r)
         (scanned :: linked :: w) t) = Ok tt st'
    /\ self st' !! "headset" = Some h
    /\ self st' !! "headset_id" = Some id
    /\ self st' !! "session_id" = Some sid
    /\ calls (trace st') = calls t ++ connect_calls tok id.
Proof.
  intros Hcode Hsid. destruct find_headset_prefix as (evs & -> & Hevs).
  exec_all. rewrite Hcode. exec_all. rewrite Hsid. eexists. split; [reflexivity|].
  cbn [self trace]. rewrite calls_app, Hevs.
  repeat split; now simplify_map_eq.
Qed.


End Headsets.

(** Two headsets are found; the session reply is [{"id": "sess-9"}]. *)
Lemma find_headset_opens_session_witness :
  ({[ "token" := VStr "tok-1" ]} : gmap string value) !! "token" = Some (VStr "tok-1")
  /\ Forall2 (fun h id => subscript h (VStr "id") = inr id)
       [VDict [("id", VStr "EPOCX-1")]; VDict [("id", VStr "INSIGHT-2")]]
       [VStr "EPOCX-1"; VStr "INSIGHT-2"]
  /\ assoc "code" [("id", VStr "sess-9")] = None
  /\ assoc "id" [("id", VStr "sess-9")] = Some (VStr "sess-9")
  /\ exists st',
       Demo.find_headset
         (State {[ "token" := VStr "tok-1" ]} []
            [VNone; VList [VDict [("id", VStr "EPOCX-1")];
                           VDict [("id", VStr "INSIGHT-2")]];
             VNone; VDict [("id", VStr "sess-9")]]
            [VInt 142; VInt 102] []) = Ok tt st'
       /\ self st' !! "headset" = Some (VDict [("id", VStr "EPOCX-1")])
       /\ self st' !! "headset_id" = Some (VStr "EPOCX-1")
       /\ self st' !! "session_id" = Some (VStr "sess-9")
       /\ calls (trace st') = calls [] ++ connect_calls (VStr "tok-1") (VStr "EPOCX-1").
Proof.
  assert (H1 : ({[ "token" := VStr "tok-1" ]} : gmap string value) !! "token"
               = Some (VStr "tok-1")) by reflexivity.
  assert (H2 : Forall2 (fun h id => subscript h (VStr "id") = inr id)
                 [VDict [("id", VStr "EPOCX-1")]; VDict [("id", VStr "INSIGHT-2")]]
                 [VStr "EPOCX-1"; VStr "INSIGHT-2"]) by (repeat constructor).
  repeat (split; [first [assumption | reflexivity]|]).
  exact (find_headset_opens_session {[ "token" := VStr "tok-1" ]} [] [] [] []
           VNone VNone (VInt 142) (VInt 102) (VStr "tok-1")
           (VDict [("id", VStr "EPOCX-1")]) (VStr "EPOCX-1")
           [VDict [("id", VStr "INSIGHT-2")]] [VStr "INSIGHT-2"]
           [("id", VStr "sess-9")] H1 H2 (VStr "sess-9") eq_refl eq_refl).
Defined.


(** ** [select_streams], the paths that submit nothing *)

Lemma announce_streams_ok s i r w t :
  exists evs,
    announce_streams (State s i r w t) = Ok tt (State s i r w (t ++ evs))
    /\ calls evs = [].
Proof.
  eexists. split; [cbn; rewrite <- !app_assoc; reflexivity | reflexivity].
Qed.

Lemma select_streams_parts st :
  Demo.select_streams st =
  method (announce_streams ;;; Demo.collect_streams ;;; Demo.translate_streams ;;;
          submit_streams) st.
Proof. reflexivity. Qed.

(** Eight collected entries: the seven tags are written, then key 7 is
    missing. *)
Lemma translate_streams_overflow s i r w t (l : list value) :
  s !! "streams" = Some (VList l) -> length l = 8%nat ->
  Demo.translate_streams (State s i r w t) =
  Stop (Exn KeyError) (State (<["streams" := VList (retag 0 7 l)]> s) i r w t).
Proof.
  intros Hs Hlen. unfold Demo.translate_streams, for_range.
  change (fun i0 : Z => _) with translate_body. exec. rewrite Hs, Hlen.
  change (seq 0 8) with (seq 0 7 ++ [7%nat]). rewrite map_app, for_each_app.
  rewrite (bind_Ok _ _ _ _ _ (translate_loop 7 0 s i r w t l Hs ltac:(lia) ltac:(lia))).
  reflexivity.
Qed.

(** The loop on picks in range, up to the line after them. *)
Lemma pick_streams_prefix lines zs :
  Forall2 reads lines zs -> Forall in_range zs ->
  forall fuel idx s seen rest r w t,
    in_range idx -> (length lines <= fuel)%nat ->
    s !! "streams" = Some (VList (map VInt seen)) ->
    exists evs idx',
      Demo.pick_streams fuel idx (State s (lines ++ rest) r w t) =
      Demo.pick_streams (fuel - length lines) idx'
        (State (<["streams" := VList (map VInt (first_picks seen zs))]> s)
           rest r w (t ++ evs))
      /\ in_range idx' /\ calls evs = [].
Proof.
  induction 1 as [|line z lines zs Hz _ IH];
    intros Hzs fuel idx s seen rest r w t Hidx Hfuel Hs.
  - exists [], idx. cbn [app length first_picks fold_left].
    rewrite Nat.sub_0_r, app_nil_r, insert_id by assumption.
    split; [reflexivity | split; [assumption | reflexivity]].
  - destruct fuel as [|fuel]; [cbn in Hfuel; lia|].
    apply Forall_cons in Hzs. destruct Hzs as [Hzr Hzs].
    cbn [app length]. rewrite (pick_streams_turn _ _ _ _ _ _ _ _ _ _ Hidx Hs Hz).
    rewrite int_in_ints, first_picks_cons. cbn [Nat.sub].
    destruct (existsb (Z.eqb z) seen) eqn:E.
    + destruct (IH Hzs fuel z s seen rest r w
                  (t ++ [Prompt Demo.pick_prompt; Print Demo.already_text]))
        as (evs & idx' & -> & Hi & Hq); try assumption; [cbn in Hfuel; lia|].
      eexists _, idx'. rewrite <- app_assoc.
      split; [reflexivity | split; [assumption | exact Hq]].
    + destruct (IH Hzs fuel z (<["streams" := VList (map VInt seen ++ [VInt z])]> s)
                  (seen ++ [z]) rest r w
                  (t ++ [Prompt Demo.pick_prompt; Print Demo.added_text]))
        as (evs & idx' & -> & Hi & Hq); try assumption; [cbn in Hfuel; lia| |].
      * rewrite lookup_insert_eq, map_app. reflexivity.
      * eexists _, idx'. rewrite <- app_assoc, insert_insert_eq.
        split; [reflexivity | split; [assumption | exact Hq]].
Qed.

Section Interrupted.

(** The operator types [lines], which read as the picks [zs], all in range. *)
Variables (lines : list string) (zs : list Z).
Hypothesis Hlines : Forall2 reads lines zs.
Hypothesis Hzs : Forall in_range zs.
Variables (s : gmap string value) (r w : list value) (t : list event).

(** X17. When the input ends before a value outside [0,6] was typed,
    [select_streams] stops with [EOFError] at the next prompt; the picks
    made so far are in [self.streams], still as integers, and nothing was
    submitted. *)
Theorem select_streams_end_of_input :
  status (Demo.select_streams (State s lines r w t)) = Some (Exn EOFError)
  /\ self (final (Demo.select_streams (State s lines r w t))) !! "streams"
     = Some (VList (map VInt (first_picks [] zs)))
  /\ calls (trace (final (Demo.select_streams (State s lines r w t)))) = calls t.
Proof.
  destruct (announce_streams_ok s lines r w t) as (evs1 & H1 & Hq1).
  rewrite select_streams_parts. unfold method. rewrite (bind_Ok _ _ _ _ _ H1).
  assert (H2 : exists evs2,
             Demo.collect_streams (State s lines r w (t ++ evs1)) =
             Stop (Exn EOFError)
               (State (<["streams" := VList (map VInt (first_picks [] zs))]> s)
                  [] r w ((t ++ evs1) ++ evs2))
             /\ calls evs2 = []).
  { clear H1. revert Hlines Hzs. intros Hl Hz.
    pose proof (pick_streams_prefix lines zs Hl Hz (S (length lines)) 0
                  (<["streams" := VList []]> s) [] [] r w (t ++ evs1)) as H.
    destruct H as (evs & idx & H & Hi & Hq);
      [unfold in_range; lia | lia | apply lookup_insert_eq |].
    rewrite app_nil_r in H. unfold Demo.collect_streams. exec. rewrite H.
    replace (S (length lines) - length lines)%nat with 1%nat by lia.
    cbn [Demo.pick_streams]. rewrite (in_range_test _ Hi). exec.
    rewrite insert_insert_eq. eexists. split; [rewrite <- app_assoc; reflexivity|].
    now rewrite calls_app, Hq. }
  destruct H2 as (evs2 & H2 & Hq2). rewrite (bind_Stop _ _ _ _ _ H2).
  cbn [status final self trace].
  rewrite lookup_insert_eq, !calls_app, Hq1, Hq2, !app_nil_r.
  now repeat split.
Qed.

(** X18. An ASCII line on which [int] raises [ValueError] ends
    [select_streams] with that exception: there is no second prompt for it;
    the lines after it are not read, the picks made so far are in
    [self.streams], and nothing was submitted. *)
Theorem select_streams_bad_line bad rest :
  unreadable bad = true ->
  status (Demo.select_streams (State s (lines ++ bad :: rest) r w t))
    = Some (Exn ValueError)
  /\ self (final (Demo.select_streams (State s (lines ++ bad :: rest) r w t)))
       !! "streams"
     = Some (VList (map VInt (first_picks [] zs)))
  /\ stdin (final (Demo.select_streams (State s (lines ++ bad :: rest) r w t))) = rest
  /\ calls (trace (final (Demo.select_streams (State s (lines ++ bad :: rest) r w t))))
     = calls t.
Proof.
  intros Hbad.
  destruct (announce_streams_ok s (lines ++ bad :: rest) r w t) as (evs1 & H1 & Hq1).
  rewrite select_streams_parts. unfold method. rewrite (bind_Ok _ _ _ _ _ H1).
  assert (H2 : exists evs2,
             Demo.collect_streams (State s (lines ++ bad :: rest) r w (t ++ evs1)) =
             Stop (Exn ValueError)
               (State (<["streams" := VList (map VInt (first_picks [] zs))]> s)
                  rest r w ((t ++ evs1) ++ evs2))
             /\ calls evs2 = []).
  { clear H1. revert Hlines Hzs. intros Hl Hz.
    pose proof (pick_streams_prefix lines zs Hl Hz (S (length (lines ++ bad :: rest))) 0
                  (<["streams" := VList []]> s) [] (bad :: rest) r w (t ++ evs1)) as H.
    destruct H as (evs & idx & H & Hi & Hq);
      [unfold in_range; lia | rewrite length_app; lia | apply lookup_insert_eq |].
    unfold Demo.collect_streams. exec. rewrite H, length_app. cbn [length].
    replace (S (length lines + S (length rest)) - length lines)%nat
      with (S (S (length rest))) by lia.
    cbn [Demo.pick_streams]. rewrite (in_range_test _ Hi). exec.
    rewrite (int_unreadable _ Hbad). exec.
    rewrite insert_insert_eq. eexists. split; [rewrite <- app_assoc; reflexivity|].
    now rewrite calls_app, Hq. }
  destruct H2 as (evs2 & H2 & Hq2). rewrite (bind_Stop _ _ _ _ _ H2).
  cbn [status final self stdin trace].
  rewrite lookup_insert_eq, !calls_app, Hq1, Hq2, !app_nil_r.
  now repeat split.
Qed.

Variables (last : string) (v : Z) (rest : list string).
Hypothesis Hlast : reads last v.
Hypothesis Hv : ~ in_range v.

Lemma select_streams_collected :
  exists evs,
    Demo.select_streams (State s (lines ++ last :: rest) r w t) =
    method (Demo.translate_streams ;;; submit_streams)
      (State (<["streams" := VList (map VInt (first_picks [] zs ++ [v]))]> s)
         rest r w (t ++ evs))
    /\ calls evs = [].
Proof.
  destruct (announce_streams_ok s (lines ++ last :: rest) r w t) as (evs1 & H1 & Hq1).
  destruct (collect_streams_run lines zs last v rest s r w (t ++ evs1)
              Hlines Hzs Hlast Hv) as (evs2 & H2 & Hq2).
  exists (evs1 ++ evs2). split.
  - rewrite select_streams_parts. unfold method.
    rewrite (bind_Ok _ _ _ _ _ H1), (bind_Ok _ _ _ _ _ H2), app_assoc. reflexivity.
  - now rewrite calls_app, Hq1, Hq2.
Qed.

(** X16. Whenever the picks cover all seven indices, in whatever order
    and however often repeated, [select_streams] raises [KeyError] after the
    loop has ended, and sends nothing. *)
Theorem select_streams_all_seven :
  size (list_to_set zs : gset Z) = 7%nat ->
  status (Demo.select_streams (State s (lines ++ last :: rest) r w t))
    = Some (Exn KeyError)
  /\ calls (trace (final (Demo.select_streams (State s (lines ++ last :: rest) r w t))))
     = calls t
  /\ stdin (final (Demo.select_streams (State s (lines ++ last :: rest) r w t))) = rest.
Proof.
  intros Hsize. destruct select_streams_collected as (evs & -> & Hq).
  unfold method. erewrite bind_Stop; cycle 1.
  { apply translate_streams_overflow; [apply lookup_insert_eq|].
    rewrite length_map, length_app, first_picks_length, Hsize. reflexivity. }
  cbn [status final trace stdin]. now rewrite calls_app, Hq, app_nil_r.
Qed.


End Interrupted.

(** Two picks, then the input ends. *)
Lemma select_streams_end_of_input_witness :
  Forall2 reads ["1"; "4"] [1; 4]
  /\ Forall in_range [1; 4]
  /\ status (Demo.select_streams (ready ["1"; "4"])) = Some (Exn EOFError)
  /\ self (final (Demo.select_streams (ready ["1"; "4"]))) !! "streams"
     = Some (VList [VInt 1; VInt 4])
  /\ calls (trace (final (Demo.select_streams (ready ["1"; "4"])))) = [].
Proof.
  assert (H1 : Forall2 reads ["1"; "4"] [1; 4]) by (repeat constructor).
  assert (H2 : Forall in_range [1; 4]) by (repeat constructor; unfold in_range; lia).
  repeat (split; [assumption|]).
  exact (select_streams_end_of_input ["1"; "4"] [1; 4] H1 H2 (self (ready []))
           (replies (ready [])) [] []).
Defined.

(** One pick, then "two" instead of a number. *)
Lemma select_streams_bad_line_witness :
  Forall2 reads ["1"] [1]
  /\ Forall in_range [1]
  /\ unreadable "two" = true
  /\ status (Demo.select_streams (ready ["1"; "two"; "-1"])) = Some (Exn ValueError)
  /\ self (final (Demo.select_streams (ready ["1"; "two"; "-1"]))) !! "streams"
     = Some (VList [VInt 1])
  /\ stdin (final (Demo.select_streams (ready ["1"; "two"; "-1"]))) = ["-1"]
  /\ calls (trace (final (Demo.select_streams (ready ["1"; "two"; "-1"])))) = [].
Proof.
  assert (H1 : Forall2 reads ["1"] [1]) by (repeat constructor).
  assert (H2 : Forall in_range [1]) by (repeat constructor; unfold in_range; lia).
  assert (H3 : unreadable "two" = true) by reflexivity.
  repeat (split; [assumption|]).
  exact (select_streams_bad_line ["1"] [1] H1 H2 (self (ready []))
           (replies (ready [])) [] [] "two" ["-1"] H3).
Defined.

(** The seven indices, 3 twice, then 12. *)
Lemma select_streams_all_seven_witness :
  Forall2 reads ["3"; "0"; "6"; "3"; "1"; "5"; "2"; "4"] [3; 0; 6; 3; 1; 5; 2; 4]
  /\ Forall in_range [3; 0; 6; 3; 1; 5; 2; 4]
  /\ reads "12" 12
  /\ ~ in_range 12
  /\ size (list_to_set [3; 0; 6; 3; 1; 5; 2; 4]%Z : gset Z) = 7%nat
  /\ status (Demo.select_streams
               (ready ["3"; "0"; "6"; "3"; "1"; "5"; "2"; "4"; "12"; "title"]))
     = Some (Exn KeyError)
  /\ calls (trace (final (Demo.select_streams
                            (ready ["3"; "0"; "6"; "3"; "1"; "5"; "2"; "4"; "12";
                                    "title"]))))
     = []
  /\ stdin (final (Demo.select_streams
                     (ready ["3"; "0"; "6"; "3"; "1"; "5"; "2"; "4"; "12"; "title"])))
     = ["title"].
Proof.
  assert (H1 : Forall2 reads ["3"; "0"; "6"; "3"; "1"; "5"; "2"; "4"]
                 [3; 0; 6; 3; 1; 5; 2; 4]) by (repeat constructor).
  assert (H2 : Forall in_range [3; 0; 6; 3; 1; 5; 2; 4])
    by (repeat constructor; unfold in_range; lia).
  assert (H3 : reads "12" 12) by reflexivity.
  assert (H4 : ~ in_range 12) by (unfold in_range; lia).
  assert (H5 : size (list_to_set [3; 0; 6; 3; 1; 5; 2; 4]%Z : gset Z) = 7%nat)
    by (vm_compute; reflexivity).
  repeat (split; [assumption|]).
  exact (select_streams_all_seven _ _ H1 H2 (self (ready [])) (replies (ready [])) [] []
           "12" 12 ["title"] H3 H4 H5).
Defined.


(** ** The form of [create_record] *)

Lemma create_record_parts st :
  Demo.create_record st =
  method (Demo.find_headset ;;; Demo.select_streams ;;; record_form) st.
Proof. reflexivity. Qed.

(** X19. The form that ends [create_record] reads three lines and drops
    them: the instance is left as it was and no request is sent. A subject
    name left blank makes it read [self.subject_name], which only
    [create_subject] sets: without it the form stops with [AttributeError]
    before the description is asked for. *)
Theorem record_form_outcome s title subject description i r w t sid tok :
  s !! "session_id" = Some sid ->
  s !! "token" = Some tok ->
  (subject <> "" \/ is_Some (s !! "subject_name") ->
   exists t',
     record_form (State s (title :: subject :: description :: i) r w t)
       = Ok tt (State s i r w t')
     /\ calls t' = calls t)
  /\ (subject = "" -> s !! "subject_name" = None ->
      exists t',
        record_form (State s (title :: subject :: description :: i) r w t)
          = Stop (Exn AttributeError) (State s (description :: i) r w t')
        /\ calls t' = calls t).
Proof.
  intros Hsid Htok. split.
  - intros Hok. unfold record_form. exec. rewrite Hsid. exec. rewrite Htok. exec.
    cbn [truthy]. destruct (String.eqb_spec subject "") as [->|Hne]; cbn [negb]; exec.
    + destruct Hok as [Hne|[name Hname]]; [contradiction|]. rewrite Hname.
      eexists. split; [reflexivity | now trace_calls].
    + eexists. split; [reflexivity | now trace_calls].
  - intros -> Hnone. unfold record_form. exec. rewrite Hsid. exec. rewrite Htok. exec.
    cbn [truthy String.eqb negb]. exec. rewrite Hnone.
    eexists. split; [reflexivity | now trace_calls].
Qed.

(** A subject was picked from the list, so no name was stored, and the
    subject name of the record is left blank. *)
Lemma record_form_outcome_witness :
  self (ready []) !! "session_id" = Some (VStr "sess-1")
  /\ self (ready []) !! "token" = Some (VStr "tok-1")
  /\ self (ready []) !! "subject_name" = None
  /\ exists t',
       record_form (ready ["session one"; ""; "first try"])
         = Stop (Exn AttributeError)
             (State (self (ready [])) ["first try"] (replies (ready [])) [] t')
       /\ calls t' = calls [].
Proof.
  assert (H1 : self (ready []) !! "session_id" = Some (VStr "sess-1")) by reflexivity.
  assert (H2 : self (ready []) !! "token" = Some (VStr "tok-1")) by reflexivity.
  assert (H3 : self (ready []) !! "subject_name" = None) by reflexivity.
  repeat (split; [assumption|]).
  exact (proj2 (record_form_outcome (self (ready [])) "session one" "" "first try" []
                  (replies (ready [])) [] [] (VStr "sess-1") (VStr "tok-1") H1 H2)
           eq_refl H3).
Defined.
